(** * Tradingbot: amortization formulas, decision loop and state store

    A shallow embedding of the decision and state-tracking code of the
    repository:

    - [analysis_simulation.py]: [depreciate] and [appreciate];
    - [tradingBot.py]: the class [TradingBot] ([_get_quantity_to_trade],
      [_get_valid_price], [_place_order], [_save_state], [_load_state],
      [run_bot]), in two modules.  [TradingBot] computes on exact rationals
      and sees the state file as its rows; it carries the properties of the
      control flow, which hold whatever the arithmetic gives.
      [TradingBot64] computes as the code does, in binary64, and sees the
      state file line by line, with or without its header; it carries the
      properties that depend on a computed number or on the header;
    - [trade.py]: the script as it is ([save_params_to_csv],
      [read_params_from_csv], [get_current_price], [get_quantity_to_trade],
      [buy], [sell], [TradeBot]);
    - [livePriceSimulator.py]: [open_file], [get_next_price] and the loop of
      the example.

    Numbers.  The Python code computes with [int] and binary64 [float].
    A finite float is a rational, and [==] is equality of rationals.
    [Py] has rounding and floor on exact values; [Float64] rounds every
    result to the nearest binary64 number, as the processor does.  The
    amortization formulas are embedded on exact rationals: their statements
    are about inputs on which the floats agree with the exact values (whole
    numbers), or hold up to the fourth decimal on amounts whose float noise
    is far below it.

    The exchange (Binance client) is an external collaborator: what it
    answers during one loop iteration is an input of the step functions. *)

From Stdlib Require Import ZArith QArith Qround Qabs Qpower Lqa Lia List Bool String.
Import ListNotations.

Local Open Scope Q_scope.

(** ** Python numeric primitives on exact rationals *)

Module Py.

(** [x < y] as a boolean. *)
Definition ltb (x y : Q) : bool := negb (Qle_bool y x).

(** [x >= y] as a boolean. *)
Definition geb (x y : Q) : bool := Qle_bool y x.

(** [x > y] as a boolean. *)
Definition gtb (x y : Q) : bool := negb (Qle_bool x y).

(** [math.floor]. *)
Definition floor (x : Q) : Z := Qfloor x.

(** Nearest integer, ties to the even one (what [round] does). *)
Definition round_half_even (x : Q) : Z :=
  let f := Qfloor x in
  match ((x - inject_Z f) ?= (1 # 2))%Q with
  | Lt => f
  | Gt => (f + 1)%Z
  | Eq => if Z.even f then f else (f + 1)%Z
  end.

(** [round(x, ndigits)] for [ndigits >= 0]. *)
Definition round (x : Q) (ndigits : nat) : Q :=
  let scale := inject_Z (10 ^ Z.of_nat ndigits) in
  inject_Z (round_half_even (x * scale)) / scale.

(** [pow(x, n)] for a non-negative integer exponent. *)
Definition pow (x : Q) (n : nat) : Q := Qpower x (Z.of_nat n).

(** [abs]. *)
Definition abs (x : Q) : Q := Qabs x.

(** [range(1, stop + 1)]: empty when [stop <= 0]. *)
Definition range1 (stop : Z) : list nat := seq 1 (Z.to_nat stop).

End Py.

(** Componentwise equality of the pairs the amortization functions return. *)
Definition pair_eq (p q : Q * Q) : Prop := fst p == fst q /\ snd p == snd q.
Infix "=p=" := pair_eq (at level 70, no associativity).

(** ** analysis_simulation.py *)

(** The inner loop of [depreciate]:
    [for j in range(1, i+1): ans += (pow(100-rate, j-1) / pow(100, j-1)) * A]. *)
Definition depreciate_series (rate A : Q) (i : nat) (ans : Q) : Q :=
  fold_left
    (fun ans j => ans + (Py.pow (100 - rate) (j - 1) / Py.pow 100 (j - 1)) * A)
    (seq 1 i) ans.

(** The outer loop of [depreciate] over the remaining values of [i], on the
    loop state [(ans, fixed_capital)]; [break] leaves the state as it is. *)
Fixpoint depreciate_loop (rate A CI : Q) (todo : list nat) (ans fixed_capital : Q)
  : Q * Q :=
  match todo with
  | [] => (ans, fixed_capital)
  | i :: rest =>
      if Py.ltb fixed_capital A then (ans, fixed_capital)
      else
        let fixed_capital := fixed_capital - A in
        let ans := depreciate_series rate A i CI in
        depreciate_loop rate A CI rest ans fixed_capital
  end.

(** [depreciate(stop, rate, A, CI, fixed_capital)]. *)
Definition depreciate (stop : Z) (rate A CI fixed_capital : Q) : Q * Q :=
  if Py.ltb fixed_capital A then (CI, fixed_capital)
  else
    let '(ans, fixed_capital) :=
      depreciate_loop rate A CI (Py.range1 stop) 0 fixed_capital in
    (Py.round ans 4, Py.round fixed_capital 4).

(** The loop of [appreciate] with [n] iterations left, on the loop state
    [(ans, fixed_capital)]. *)
Fixpoint appreciate_loop (rate A : Q) (n : nat) (ans fixed_capital : Q) : Q * Q :=
  match n with
  | O => (ans, fixed_capital)
  | S n' =>
      let ans := (1 + rate / 100) * ans in
      if Py.gtb ans A then appreciate_loop rate A n' (ans - A) (fixed_capital + A)
      else (ans, fixed_capital)
  end.

(** [appreciate(stop, rate, A, CI, fixed_capital)]. *)
Definition appreciate (stop : Z) (rate A CI fixed_capital : Q) : Q * Q :=
  let '(ans, fixed_capital) :=
    appreciate_loop rate A (Z.to_nat stop) CI fixed_capital in
  (Py.round ans 4, Py.round fixed_capital 4).

(** What [depreciate] removes from the sum of the two pools in [stop]
    iterations: the [j]-th unit of [A] leaves the capital whole and enters
    the investment scaled by [((100 - rate) / 100) ^ (j - 1)]. *)
Definition depreciate_shortfall (rate A : Q) (stop : nat) : Q :=
  fold_right
    (fun j acc => (1 - Py.pow (100 - rate) (j - 1) / Py.pow 100 (j - 1)) * A + acc)
    0 (seq 1 stop).

(** What the multiplications by [1 + rate / 100] add to the investment during
    the iterations [appreciate_loop] performs. *)
Fixpoint appreciate_growth (rate A : Q) (n : nat) (ans : Q) : Q :=
  match n with
  | O => 0
  | S n' =>
      let grown := (1 + rate / 100) * ans in
      (grown - ans)
      + (if Py.gtb grown A then appreciate_growth rate A n' (grown - A) else 0)
  end.

(** ** Orders sent to the exchange *)

Inductive side := Buy | Sell.

(** One call of an order-placing function: the side, the quantity, the limit
    price ([None] for a market order) and whether the exchange accepted it
    (the call returned an order and not [None]). *)
Record order := mk_order {
  o_side : side;
  o_quantity : Q;
  o_price : option Q;
  o_accepted : bool
}.

(** Which branch of the loop body a price selects: the buy branch, the sell
    branch, or neither. *)
Inductive action := Trigger (s : side) | Hold.

(** How one iteration of a [while True] loop ends: [Continue] reaches the
    next iteration, [Break] leaves the loop, [Raise] is an exception (or
    [exit()]) that nothing catches. *)
Inductive control := Continue | Break | Raise.

(** [params[-1]]. *)
Fixpoint last_opt {A : Type} (l : list A) : option A :=
  match l with
  | [] => None
  | [x] => Some x
  | _ :: l' => last_opt l'
  end.

(** Trade sizing, the body shared by [TradingBot._get_quantity_to_trade] and
    [trade.get_quantity_to_trade] after the filters and the ticker have been
    read: [None] when the function does not return ([exit()] on a zero step
    size, division by a zero price). *)
Definition quantity_to_trade (amortized_investment step_size min_notional
                              current_price : Q) : option (Q * Q) :=
  if Qeq_bool step_size 0 then None
  else if Qeq_bool current_price 0 then None
  else
    let raw_quantity := amortized_investment / current_price in
    let quantity_to_buy :=
      inject_Z (Py.floor (raw_quantity / step_size)) * step_size in
    let order_value := quantity_to_buy * current_price in
    if Py.ltb order_value min_notional then Some (0, order_value)
    else Some (quantity_to_buy, order_value).

(** ** tradingBot.py *)

Module TradingBot.

(** The ledger fields of a [TradingBot] object. *)
Record t := mk {
  amortized_investment : Q;
  rate : Q;
  fixed_capital : Q;
  last_trade_price : option Q;
  current_investment : Q
}.

(** One row of the CSV file, in the order of [params]. *)
Record row := mk_row {
  r_amortized_investment : Q;
  r_rate : Q;
  r_current_investment : Q;
  r_fixed_capital : Q;
  r_last_trade_price : Q
}.

(** The CSV file: [None] when the file does not exist, [Some rows] for a
    file with its header and the rows below it.  A number is written with
    [repr] and read back with [float], which returns the same number. *)
Definition store := option (list row).

Definition _save_state (self : t) (csv_file : store) : store :=
  match last_trade_price self with
  | None => csv_file
  | Some p =>
      let params :=
        {| r_amortized_investment := amortized_investment self;
           r_rate := rate self;
           r_current_investment := current_investment self;
           r_fixed_capital := fixed_capital self;
           r_last_trade_price := p |} in
      match csv_file with
      | None => Some [params]
      | Some rows => Some (rows ++ [params])
      end
  end.

Definition _load_state (self : t) (csv_file : store) : t :=
  match csv_file with
  | None => self
  | Some params =>
      match last_opt params with
      | Some last_state =>
          {| amortized_investment := amortized_investment self;
             rate := rate self;
             fixed_capital := r_fixed_capital last_state;
             last_trade_price := Some (r_last_trade_price last_state);
             current_investment := r_current_investment last_state |}
      | None => self
      end
  end.

(** [self.last_trade_price = current_price]. *)
Definition set_last_trade_price (self : t) (current_price : Q) : t :=
  {| amortized_investment := amortized_investment self;
     rate := rate self;
     fixed_capital := fixed_capital self;
     last_trade_price := Some current_price;
     current_investment := current_investment self |}.

(** [__init__]: the configuration values, then [_load_state]. *)
Definition init (amortized_investment rate fixed_capital current_investment : Q)
           (csv_file : store) : t :=
  _load_state
    {| amortized_investment := amortized_investment;
       rate := rate;
       fixed_capital := fixed_capital;
       last_trade_price := None;
       current_investment := current_investment |}
    csv_file.

(** What the exchange answers during one iteration of the loop. *)
Record exchange := mk_exchange {
  market_price : option Q;  (* [_get_market_data]: [None] on an API error *)
  step_size : Q;            (* LOT_SIZE filter, 0 when absent *)
  min_notional : Q;         (* MIN_NOTIONAL filter, 0 when absent *)
  ticker_price : Q;         (* the ticker read again by the sizing *)
  tick_size : option Q;     (* PRICE_FILTER, [None] when absent *)
  order_accepted : bool     (* [_place_order] returned an order *)
}.

Definition _get_quantity_to_trade (self : t) (x : exchange) : option (Q * Q) :=
  quantity_to_trade (amortized_investment self) (step_size x)
                    (min_notional x) (ticker_price x).

(** [None] when the division by a zero tick size raises. *)
Definition _get_valid_price (x : exchange) (price : Q) : option Q :=
  match tick_size x with
  | Some ts =>
      if Qeq_bool ts 0 then None
      else Some (inject_Z (Py.floor (price / ts)) * ts)
  | None => Some price
  end.

Definition _place_order (order_type : side) (x : exchange) (quantity price : Q)
  : order :=
  mk_order order_type quantity (Some price) (order_accepted x).

(** The result of one loop iteration. *)
Record step_result := mk_step {
  s_bot : t;
  s_store : store;
  s_orders : list order;
  s_control : control
}.

(** The branch taken once [quantity] is known, for either side. *)
Definition trade (self : t) (csv_file : store) (x : exchange)
           (order_type : side) (current_price : Q) : step_result :=
  match _get_quantity_to_trade self x with
  | None => mk_step self csv_file [] Raise
  | Some (quantity, order_value) =>
      if Py.gtb quantity 0 then
        match _get_valid_price x current_price with
        | None => mk_step self csv_file [] Raise
        | Some limit_price =>
            let o := _place_order order_type x quantity limit_price in
            if o_accepted o then
              let self' := set_last_trade_price self current_price in
              mk_step self' (_save_state self' csv_file) [o] Continue
            else mk_step self csv_file [o] Continue
        end
      else mk_step self csv_file [] Continue
  end.

(** The percentage move of [run_bot]. *)
Definition rate_change (last_trade_price current_price : Q) : Q :=
  Py.round (Py.abs (current_price - last_trade_price) / last_trade_price * 100) 3.

(** The [if] / [elif] chain of [run_bot] on the percentage move. *)
Definition decide (self : t) (ltp current_price : Q) : action :=
  let rate_now := rate_change ltp current_price in
  if Py.ltb current_price ltp && Py.geb rate_now (rate self) then Trigger Buy
  else if Py.gtb current_price ltp && Py.geb rate_now (rate self)
  then Trigger Sell
  else Hold.

(** The body of [while True] in [run_bot]. *)
Definition run_bot_step (self : t) (csv_file : store) (x : exchange)
  : step_result :=
  match market_price x with
  | None => mk_step self csv_file [] Continue
  | Some current_price =>
      if Qeq_bool current_price 0 then mk_step self csv_file [] Continue
      else
        match last_trade_price self with
        | None => mk_step self csv_file [] Raise
        | Some ltp =>
            if Qeq_bool ltp 0 then mk_step self csv_file [] Raise
            else
              match decide self ltp current_price with
              | Trigger Buy =>
                  if Py.geb (fixed_capital self) (amortized_investment self)
                  then trade self csv_file x Buy current_price
                  else mk_step self csv_file [] Break
              | Trigger Sell =>
                  if Py.geb (current_investment self) (amortized_investment self)
                  then trade self csv_file x Sell current_price
                  else mk_step self csv_file [] Break
              | Hold => mk_step self csv_file [] Continue
              end
        end
  end.

(** How a run stands after the answers given so far: the loop is still
    [Running], [run_bot] has returned ([Halted]), or the process died on an
    exception ([Crashed]). *)
Inductive status := Running | Halted | Crashed.

Record run_result := mk_run {
  r_bot : t;
  r_store : store;
  r_orders : list order;
  r_status : status
}.

(** The loop of [run_bot] over the exchange's answers, one per iteration. *)
Fixpoint run_loop (self : t) (csv_file : store) (xs : list exchange)
  : run_result :=
  match xs with
  | [] => mk_run self csv_file [] Running
  | x :: xs' =>
      let s := run_bot_step self csv_file x in
      match s_control s with
      | Continue =>
          let r := run_loop (s_bot s) (s_store s) xs' in
          mk_run (r_bot r) (r_store r) (s_orders s ++ r_orders r) (r_status r)
      | Break => mk_run (s_bot s) (s_store s) (s_orders s) Halted
      | Raise => mk_run (s_bot s) (s_store s) (s_orders s) Crashed
      end
  end.

(** [run_bot] once connected: [first] is the answer to the initial
    [_get_market_data], asked only when no trade price is known. *)
Definition run_bot (self : t) (csv_file : store) (first : option Q)
           (xs : list exchange) : run_result :=
  match last_trade_price self with
  | Some _ => run_loop self csv_file xs
  | None =>
      match first with
      | None => mk_run self csv_file [] Halted
      | Some current_price =>
          if Qeq_bool current_price 0 then mk_run self csv_file [] Halted
          else run_loop (set_last_trade_price self current_price) csv_file xs
      end
  end.

End TradingBot.

(** ** The symbol information read by the sizing and the price rounding *)

(** One entry of [info['filters']], by its [filterType]; an entry carries the
    key the code reads from it. *)
Inductive filter :=
| LOT_SIZE (stepSize : Q)
| MIN_NOTIONAL (minNotional : Q)
| PRICE_FILTER (tickSize : Q)
| OTHER_FILTER.

(** The loop [for f in info['filters']] of the two sizing functions, on the
    variables [(step_size, min_notional)]. *)
Fixpoint read_filters (filters : list filter) (step_size min_notional : Q)
  : Q * Q :=
  match filters with
  | [] => (step_size, min_notional)
  | LOT_SIZE s :: rest => read_filters rest s min_notional
  | MIN_NOTIONAL m :: rest => read_filters rest step_size m
  | _ :: rest => read_filters rest step_size min_notional
  end.

(** [next(f['tickSize'] for f in info['filters']
          if f['filterType'] == 'PRICE_FILTER')]: [None] is [StopIteration]. *)
Fixpoint first_tick_size (filters : list filter) : option Q :=
  match filters with
  | [] => None
  | PRICE_FILTER t :: _ => Some t
  | _ :: rest => first_tick_size rest
  end.

(** The sizing functions from the symbol information and the ticker: the
    two variables start at 0.0. *)
Definition quantity_from_info (amortized_investment : Q) (filters : list filter)
           (current_price : Q) : option (Q * Q) :=
  let '(step_size, min_notional) := read_filters filters 0 0 in
  quantity_to_trade amortized_investment step_size min_notional current_price.

(** The rows a [csv.DictReader] finds in the state file: none when the file
    does not exist. *)
Definition rows_of (csv_file : TradingBot.store) : list TradingBot.row :=
  match csv_file with
  | Some rows => rows
  | None => []
  end.

(** ** livePriceSimulator.py *)

Module LivePriceSimulator.

(** The state of a simulator that matters for what it delivers: the rows the
    reader has not yet returned ([None] before a file is open) and the flag
    [is_finished]. *)
Record t := mk {
  reader : option (list (list string));
  is_finished : bool
}.

(** [__init__]. *)
Definition init : t := mk None false.

(** [open_file] on the file at [file_path]: [None] when there is no such
    file, else its rows, the header first. *)
Definition open_file (self : t) (file : option (list (list string))) : t :=
  match file with
  | None => mk (reader self) true
  | Some [] => mk (Some []) true
  | Some (_ :: rows) => mk (Some rows) (is_finished self)
  end.

(** What a call of [get_next_price] gives: a price, [None], or an exception
    that the method does not catch. *)
Inductive reply := Price (price : string) | NoPrice | Failure.

(** [get_next_price]: the reply and the simulator after the call.  [next] on
    a reader that was never opened and [row[0]] on an empty row raise. *)
Definition get_next_price (self : t) : reply * t :=
  if is_finished self then (NoPrice, self)
  else
    match reader self with
    | None => (Failure, self)
    | Some [] => (NoPrice, mk (Some []) true)
    | Some (row :: rest) =>
        match row with
        | [] => (Failure, mk (Some rest) false)
        | price :: _ => (Price price, mk (Some rest) false)
        end
    end.

(** [n] calls of [get_next_price] in a row: the replies, and the simulator
    after them. *)
Fixpoint calls (n : nat) (self : t) : list reply * t :=
  match n with
  | O => ([], self)
  | S n' =>
      let '(r, self') := get_next_price self in
      let '(rs, self'') := calls n' self' in
      (r :: rs, self'')
  end.

(** The loop of the example at the end of the file: call until [None], and
    collect what was printed; [fuel] bounds the number of calls. *)
Fixpoint received (fuel : nat) (self : t) : option (list string) :=
  match fuel with
  | O => None
  | S fuel' =>
      match get_next_price self with
      | (Price price, self') =>
          match received fuel' self' with
          | Some prices => Some (price :: prices)
          | None => None
          end
      | (NoPrice, _) => Some []
      | (Failure, _) => None
      end
  end.

End LivePriceSimulator.

(** ** Binary64 arithmetic *)

(** A Python [float] is a binary64 number, and every finite binary64 number
    is a rational.  The operations below compute on those rationals as the
    processor does: the exact result, rounded to the nearest binary64 number,
    ties to the even mantissa, with subnormal numbers below [2 ^ -1022].
    Exponents are not bounded above; [overflow] tells the results that are an
    infinity on the processor, and the functions below test it where the code
    would raise on one. *)
Module Float64.

Definition pow2 (e : Z) : Q := Qpower 2 e.

(** [2 ^ e <= a / b], for positive [a] and [b]. *)
Definition ge_pow2 (a b e : Z) : bool :=
  if (0 <=? e)%Z then (b * 2 ^ e <=? a)%Z else (b <=? a * 2 ^ (- e))%Z.

(** The binade of a positive rational: the largest [e] with [2 ^ e <= q]. *)
Definition binade (q : Q) : Z :=
  let a := Qnum q in
  let b := Zpos (Qden q) in
  let e0 := (Z.log2 a - Z.log2 b)%Z in
  if ge_pow2 a b e0 then e0 else (e0 - 1)%Z.

(** Rounding of a positive rational to 53 significant bits. *)
Definition fl_pos (q : Q) : Q :=
  let e := Z.max (binade q - 52) (-1074) in
  inject_Z (Py.round_half_even (q / pow2 e)) * pow2 e.

(** Rounding to the nearest binary64 number. *)
Definition fl (q : Q) : Q :=
  let r := Qred q in
  match r ?= 0 with
  | Eq => 0
  | Gt => fl_pos r
  | Lt => - fl_pos (- r)
  end.

(** The magnitude is beyond the largest binary64 number. *)
Definition overflow (x : Q) : bool := Qle_bool (pow2 1024) (Qabs x).

(** [x] is a finite binary64 number. *)
Definition is_float (x : Q) : bool := Qeq_bool (fl x) x && negb (overflow x).

(** [float(s)] for a decimal text or a number [s]. *)
Definition float (s : Q) : Q := fl s.

Definition add (x y : Q) : Q := fl (x + y).
Definition sub (x y : Q) : Q := fl (x - y).
Definition mul (x y : Q) : Q := fl (x * y).

(** [x / y] for [y] other than 0 (Python raises on 0). *)
Definition div (x y : Q) : Q := fl (x / y).

Definition abs (x : Q) : Q := Qabs x.

(** [round(x, ndigits)] on a float: the decimal with [ndigits] decimals
    nearest to the exact value of [x], ties to even, then the float nearest
    to that decimal. *)
Definition round (x : Q) (ndigits : nat) : Q := fl (Py.round x ndigits).

(** [math.floor] of a finite float. *)
Definition floor (x : Q) : Z := Qfloor x.

(** The decimal that [f"{x:.6f}"] prints. *)
Definition format6 (x : Q) : Q := Py.round x 6.

End Float64.

(** ** tradingBot.py on binary64 numbers and on the state file as it is *)

(** The class once more, with the arithmetic of [Float64] where the code
    computes with floats, with [float(...)] where the code converts what it
    was given, and with a state file that may be any sequence of lines the
    code itself can have written, the header line among them or not.  The
    records are those of [TradingBot]; in an [exchange] the numbers are the
    decimal texts the exchange sent. *)
Module TradingBot64.

(** A line of the CSV file: the header [DictWriter.writeheader] writes, or a
    row. *)
Inductive line := Header | Row (r : TradingBot.row).

(** The file: [None] when it does not exist, else its lines. *)
Definition file := option (list line).

(** The header is written only when the file did not exist. *)
Definition _save_state (self : TradingBot.t) (csv_file : file) : file :=
  match TradingBot.last_trade_price self with
  | None => csv_file
  | Some p =>
      let params :=
        {| TradingBot.r_amortized_investment := TradingBot.amortized_investment self;
           TradingBot.r_rate := TradingBot.rate self;
           TradingBot.r_current_investment := TradingBot.current_investment self;
           TradingBot.r_fixed_capital := TradingBot.fixed_capital self;
           TradingBot.r_last_trade_price := p |} in
      match csv_file with
      | None => Some [Header; Row params]
      | Some lines => Some (lines ++ [Row params])
      end
  end.

(** [csv.DictReader] takes the first line for the field names, whatever it
    is, and the other lines for the records.  [None] is an exception: the
    [KeyError] of [last_state['last_trade_price']] when the first line was a
    row, the [ValueError] of [float] when the last record is a header line. *)
Definition _load_state (self : TradingBot.t) (csv_file : file)
  : option TradingBot.t :=
  match csv_file with
  | None => Some self
  | Some [] => Some self
  | Some (Header :: params) =>
      match last_opt params with
      | None => Some self
      | Some (Row last_state) =>
          Some
            {| TradingBot.amortized_investment := TradingBot.amortized_investment self;
               TradingBot.rate := TradingBot.rate self;
               TradingBot.fixed_capital :=
                 Float64.float (TradingBot.r_fixed_capital last_state);
               TradingBot.last_trade_price :=
                 Some (Float64.float (TradingBot.r_last_trade_price last_state));
               TradingBot.current_investment :=
                 Float64.float (TradingBot.r_current_investment last_state) |}
      | Some Header => None
      end
  | Some (Row _ :: params) =>
      match params with
      | [] => Some self
      | _ :: _ => None
      end
  end.

(** [__init__]: [None] when [_load_state] raises. *)
Definition init (amortized_investment rate fixed_capital current_investment : Q)
           (csv_file : file) : option TradingBot.t :=
  _load_state
    {| TradingBot.amortized_investment := Float64.float amortized_investment;
       TradingBot.rate := Float64.float rate;
       TradingBot.fixed_capital := Float64.float fixed_capital;
       TradingBot.last_trade_price := None;
       TradingBot.current_investment := current_investment |}
    csv_file.

(** [_get_market_data]: the price as a float, [None] on an API error. *)
Definition _get_market_data (x : TradingBot.exchange) : option Q :=
  option_map Float64.float (TradingBot.market_price x).

(** The sizing after the filters and the ticker have been read; [None] when
    it does not return: [exit()] on a zero step size, division by a zero
    price, [math.floor] of an infinity. *)
Definition quantity_to_trade (amortized_investment step_size min_notional
                              current_price : Q) : option (Q * Q) :=
  if Qeq_bool step_size 0 then None
  else if Qeq_bool current_price 0 then None
  else
    let raw_quantity := Float64.div amortized_investment current_price in
    let steps := Float64.div raw_quantity step_size in
    if Float64.overflow raw_quantity || Float64.overflow steps then None
    else
      let quantity_to_buy :=
        Float64.mul (inject_Z (Float64.floor steps)) step_size in
      let order_value := Float64.mul quantity_to_buy current_price in
      if Py.ltb order_value min_notional then Some (0, order_value)
      else Some (quantity_to_buy, order_value).

Definition _get_quantity_to_trade (self : TradingBot.t) (x : TradingBot.exchange)
  : option (Q * Q) :=
  quantity_to_trade (TradingBot.amortized_investment self)
                    (Float64.float (TradingBot.step_size x))
                    (Float64.float (TradingBot.min_notional x))
                    (Float64.float (TradingBot.ticker_price x)).

(** [None] when the division by a zero tick size or the floor of an infinity
    raises. *)
Definition _get_valid_price (x : TradingBot.exchange) (price : Q) : option Q :=
  match TradingBot.tick_size x with
  | Some ts =>
      let tick_size := Float64.float ts in
      if Qeq_bool tick_size 0 then None
      else
        let ticks := Float64.div price tick_size in
        if Float64.overflow ticks then None
        else Some (Float64.mul (inject_Z (Float64.floor ticks)) tick_size)
  | None => Some price
  end.

(** The order carries the price as the text [f"{price:.6f}"]. *)
Definition _place_order (order_type : side) (x : TradingBot.exchange)
           (quantity price : Q) : order :=
  mk_order order_type quantity (Some (Float64.format6 price))
           (TradingBot.order_accepted x).

Record step_result := mk_step {
  s_bot : TradingBot.t;
  s_file : file;
  s_orders : list order;
  s_control : control
}.

(** The branch taken once [quantity] is known, for either side. *)
Definition trade (self : TradingBot.t) (csv_file : file) (x : TradingBot.exchange)
           (order_type : side) (current_price : Q) : step_result :=
  match _get_quantity_to_trade self x with
  | None => mk_step self csv_file [] Raise
  | Some (quantity, order_value) =>
      if Py.gtb quantity 0 then
        match _get_valid_price x current_price with
        | None => mk_step self csv_file [] Raise
        | Some limit_price =>
            let o := _place_order order_type x quantity limit_price in
            if o_accepted o then
              let self' := TradingBot.set_last_trade_price self current_price in
              mk_step self' (_save_state self' csv_file) [o] Continue
            else mk_step self csv_file [o] Continue
        end
      else mk_step self csv_file [] Continue
  end.

(** [round((abs(current_price - last_trade_price) / last_trade_price) * 100, 3)]. *)
Definition rate_change (last_trade_price current_price : Q) : Q :=
  Float64.round
    (Float64.mul
       (Float64.div (Float64.abs (Float64.sub current_price last_trade_price))
                    last_trade_price)
       100)
    3.

(** The [if] / [elif] chain of [run_bot] on the percentage move. *)
Definition decide (self : TradingBot.t) (ltp current_price : Q) : action :=
  let rate_now := rate_change ltp current_price in
  if Py.ltb current_price ltp && Py.geb rate_now (TradingBot.rate self)
  then Trigger Buy
  else if Py.gtb current_price ltp && Py.geb rate_now (TradingBot.rate self)
  then Trigger Sell
  else Hold.

(** The body of [while True] in [run_bot]. *)
Definition run_bot_step (self : TradingBot.t) (csv_file : file)
           (x : TradingBot.exchange) : step_result :=
  match _get_market_data x with
  | None => mk_step self csv_file [] Continue
  | Some current_price =>
      if Qeq_bool current_price 0 then mk_step self csv_file [] Continue
      else
        match TradingBot.last_trade_price self with
        | None => mk_step self csv_file [] Raise
        | Some ltp =>
            if Qeq_bool ltp 0 then mk_step self csv_file [] Raise
            else
              match decide self ltp current_price with
              | Trigger Buy =>
                  if Py.geb (TradingBot.fixed_capital self)
                            (TradingBot.amortized_investment self)
                  then trade self csv_file x Buy current_price
                  else mk_step self csv_file [] Break
              | Trigger Sell =>
                  if Py.geb (TradingBot.current_investment self)
                            (TradingBot.amortized_investment self)
                  then trade self csv_file x Sell current_price
                  else mk_step self csv_file [] Break
              | Hold => mk_step self csv_file [] Continue
              end
        end
  end.

Record run_result := mk_run {
  r_bot : TradingBot.t;
  r_file : file;
  r_orders : list order;
  r_status : TradingBot.status
}.

(** The loop of [run_bot] over the exchange's answers, one per iteration. *)
Fixpoint run_loop (self : TradingBot.t) (csv_file : file)
         (xs : list TradingBot.exchange) : run_result :=
  match xs with
  | [] => mk_run self csv_file [] TradingBot.Running
  | x :: xs' =>
      let s := run_bot_step self csv_file x in
      match s_control s with
      | Continue =>
          let r := run_loop (s_bot s) (s_file s) xs' in
          mk_run (r_bot r) (r_file r) (s_orders s ++ r_orders r) (r_status r)
      | Break => mk_run (s_bot s) (s_file s) (s_orders s) TradingBot.Halted
      | Raise => mk_run (s_bot s) (s_file s) (s_orders s) TradingBot.Crashed
      end
  end.

(** [run_bot] once connected: [first] is the answer to the initial
    [_get_market_data], asked only when no trade price is known. *)
Definition run_bot (self : TradingBot.t) (csv_file : file)
           (first : TradingBot.exchange) (xs : list TradingBot.exchange)
  : run_result :=
  match TradingBot.last_trade_price self with
  | Some _ => run_loop self csv_file xs
  | None =>
      match _get_market_data first with
      | None => mk_run self csv_file [] TradingBot.Halted
      | Some current_price =>
          if Qeq_bool current_price 0
          then mk_run self csv_file [] TradingBot.Halted
          else run_loop (TradingBot.set_last_trade_price self current_price)
                        csv_file xs
      end
  end.

(** The rows a bot appends in a run are floats already: reading one back
    with [float] returns it. *)
Definition float_row (r : TradingBot.row) : bool :=
  Float64.is_float (TradingBot.r_current_investment r)
  && Float64.is_float (TradingBot.r_fixed_capital r)
  && Float64.is_float (TradingBot.r_last_trade_price r).

End TradingBot64.

(** ** trade.py *)

(** The script as it is.  The module sets [client = None] and no statement
    assigns the module variable again: [connect_to_binance] and [TradeBot]
    both assign a local variable of that name.  So [get_current_price],
    [get_quantity_to_trade], [buy] and [sell], which read the module
    variable, never reach a client, and [TradeBot], which reads its local
    variable before it has assigned it, raises [UnboundLocalError] in the
    first iteration of its loop. *)
Module Trade.

(** [client = None]. *)
Definition client : option unit := None.

(** The constants of [config.py], which is not among the sources: its
    values are parameters. *)
Record config := mk_config {
  A : Q;
  R : Q;
  CI : Q;
  FIXED_CAPITAL : Q;
  SYMBOL : string
}.

(** The dictionary [params] of the defaults, which is also one row of
    [data.csv]. *)
Record params := mk_params {
  p_amortized_investment : Q;
  p_rate : Q;
  p_current_investment : Q;
  p_fixed_capital : Q;
  p_symbol : string;
  p_last_trade_price : Q;
  p_quantity_to_trade : Q;
  p_Actual_order_value : Q
}.

Inductive line := Header | Row (p : params).

Definition file := option (list line).

(** The header is written only when the file did not exist. *)
Definition save_params_to_csv (p : params) (filename : file) : file :=
  match filename with
  | None => Some [Header; Row p]
  | Some lines => Some (lines ++ [Row p])
  end.

(** The dictionary returned pairs the first line of the file, taken for the
    field names, with the last of the other lines; [None] without a file or
    without such a line. *)
Definition read_params_from_csv (filename : file) : option (line * line) :=
  match filename with
  | None => None
  | Some [] => None
  | Some (names :: records) =>
      match last_opt records with
      | Some last => Some (names, last)
      | None => None
      end
  end.

(** [get_current_price]: the ticker when there is a client, else [None]. *)
Definition get_current_price (ticker : string * Q) : option (string * Q) :=
  match client with
  | Some _ => Some ticker
  | None => None
  end.

(** [get_quantity_to_trade]: [None] when it raises, as
    [client.get_symbol_info] does without a client; else the sizing of the
    class. *)
Definition get_quantity_to_trade (amortized_investment step_size min_notional
                                  current_price : Q) : option (Q * Q) :=
  match client with
  | Some _ =>
      TradingBot64.quantity_to_trade amortized_investment
                                     (Float64.float step_size)
                                     (Float64.float min_notional)
                                     (Float64.float current_price)
  | None => None
  end.

(** [buy] and [sell]: the order the exchange received, [None] when the call
    raised before (the exception is caught and [None] returned). *)
Definition buy (accepted : bool) (quantity : Q) : option order :=
  match client with
  | Some _ => Some (mk_order Buy quantity None accepted)
  | None => None
  end.

Definition sell (accepted : bool) (quantity : Q) : option order :=
  match client with
  | Some _ => Some (mk_order Sell quantity None accepted)
  | None => None
  end.

(** The local variable [client] of [TradeBot]. *)
Inductive binding := Unbound | Bound (c : option unit).

(** Where the loop of [TradeBot] stands: it raised [UnboundLocalError], it
    waits for the next answer, or it has a price and enters the part of the
    body that trades (from [print("Current Price:", current_price)] on). *)
Inductive outcome :=
| UnboundLocalError
| Waiting
| Trading (current_price : string * Q).

(** The loop [while(True)] of [TradeBot] up to the point where it has a
    price, over what the exchange would answer, one answer per iteration:
    whether [connect_to_binance] worked, and the ticker.  Reading the
    unbound local variable raises, outside the [try].  Bound to [None], the
    iteration connects and continues.  Bound to a client, it asks
    [get_current_price] and continues when that returns [None]. *)
Fixpoint TradeBot_loop (local : binding) (answers : list (bool * (string * Q)))
  : outcome :=
  match local with
  | Unbound => UnboundLocalError
  | Bound c =>
      match answers with
      | [] => Waiting
      | (connected, ticker) :: rest =>
          match c with
          | None =>
              TradeBot_loop (Bound (if connected then Some tt else None)) rest
          | Some _ =>
              match get_current_price ticker with
              | None => TradeBot_loop local rest
              | Some current_price => Trading current_price
              end
          end
      end
  end.

(** The start of [TradeBot], which writes the defaults when the file gives
    no dictionary and a price is known: the file after it. *)
Definition TradeBot_start (cfg : config) (filename : file) (ticker : string * Q)
  : file :=
  match read_params_from_csv filename, get_current_price ticker with
  | None, Some (sym, price) =>
      save_params_to_csv
        {| p_amortized_investment := A cfg;
           p_rate := R cfg;
           p_current_investment := CI cfg;
           p_fixed_capital := FIXED_CAPITAL cfg;
           p_symbol := sym;
           p_last_trade_price := price;
           p_quantity_to_trade := 0;
           p_Actual_order_value := 0 |}
        filename
  | _, _ => filename
  end.

(** [TradeBot]: the file after the start, and where the loop stands; the
    local variable [client] is not bound when the loop begins. *)
Definition TradeBot (cfg : config) (filename : file) (ticker : string * Q)
           (answers : list (bool * (string * Q))) : file * outcome :=
  (TradeBot_start cfg filename ticker, TradeBot_loop Unbound answers).

End Trade.

(** A sizing returned the pair [(quantity, order_value)]. *)
Definition sized (r : option (Q * Q)) (quantity order_value : Q) : Prop :=
  match r with
  | Some (q, v) => q == quantity /\ v == order_value
  | None => False
  end.

(** An amount of money the statements on single steps speak about: between
    0 and a million units, where the float noise of a sum or of a product
    by a factor of at most 11 stays far below the fourth decimal. *)
Definition amount (x : Q) : Prop := 0 <= x /\ x <= 1000000.

(** Two ledgers hold the same numbers. *)
Definition same_ledger (b1 b2 : TradingBot.t) : Prop :=
  TradingBot.amortized_investment b1 == TradingBot.amortized_investment b2
  /\ TradingBot.rate b1 == TradingBot.rate b2
  /\ TradingBot.fixed_capital b1 == TradingBot.fixed_capital b2
  /\ TradingBot.current_investment b1 == TradingBot.current_investment b2
  /\ match TradingBot.last_trade_price b1, TradingBot.last_trade_price b2 with
     | Some p1, Some p2 => p1 == p2
     | None, None => True
     | _, _ => False
     end.

(** The state file does not exist or begins with the header. *)
Definition absent_or_headed (csv_file : TradingBot64.file) : Prop :=
  csv_file = None \/ exists lines, csv_file = Some (TradingBot64.Header :: lines).

(** The state file begins with the header and ends with a row. *)
Definition ends_with_row (csv_file : TradingBot64.file) : Prop :=
  exists lines row,
    csv_file = Some (TradingBot64.Header :: lines)
    /\ last_opt lines = Some (TradingBot64.Row row).

(** The ledger in memory is the one a restart with the configuration
    [a r f c] would load, once the file ends with a row. *)
Definition resumes (a r f c : Q) (self : TradingBot.t)
           (csv_file : TradingBot64.file) : Prop :=
  ends_with_row csv_file ->
  exists restarted,
    TradingBot64.init a r f c csv_file = Some restarted
    /\ same_ledger restarted self.

(** What every iteration of [run_bot] keeps: the configuration, pools that
    are floats, a file with its header, and [resumes]. *)
Definition run_invariant (a r f c : Q) (self : TradingBot.t)
           (csv_file : TradingBot64.file) : Prop :=
  absent_or_headed csv_file
  /\ TradingBot.amortized_investment self = Float64.float a
  /\ TradingBot.rate self = Float64.float r
  /\ Float64.float (TradingBot.fixed_capital self) == TradingBot.fixed_capital self
  /\ Float64.float (TradingBot.current_investment self)
     == TradingBot.current_investment self
  /\ resumes a r f c self csv_file.

(** * Properties *)

(** ** The numeric primitives *)

Section PyFacts.

Lemma ltb_lt (x y : Q) : Py.ltb x y = true <-> x < y.
Proof.
  unfold Py.ltb. rewrite negb_true_iff, <- not_true_iff_false, Qle_bool_iff.
  split; [apply Qnot_le_lt | apply Qlt_not_le].
Qed.

Lemma ltb_ge (x y : Q) : Py.ltb x y = false <-> y <= x.
Proof.
  unfold Py.ltb. rewrite negb_false_iff. apply Qle_bool_iff.
Qed.

Lemma gtb_gt (x y : Q) : Py.gtb x y = true <-> y < x.
Proof. apply (ltb_lt y x). Qed.

Lemma gtb_le (x y : Q) : Py.gtb x y = false <-> x <= y.
Proof. apply (ltb_ge y x). Qed.

Lemma geb_ge (x y : Q) : Py.geb x y = true <-> y <= x.
Proof. apply Qle_bool_iff. Qed.

#[global] Instance round_half_even_comp : Proper (Qeq ==> eq) Py.round_half_even.
Proof.
  intros x y E. unfold Py.round_half_even.
  rewrite (Qfloor_comp _ _ E).
  assert (C : (x - inject_Z (Qfloor y) ?= 1 # 2) = (y - inject_Z (Qfloor y) ?= 1 # 2))
    by (apply Qcompare_comp; [rewrite E |]; reflexivity).
  rewrite C. reflexivity.
Qed.

#[global] Instance round_comp : Proper (Qeq ==> eq ==> Qeq) Py.round.
Proof.
  intros x y E n m <-. unfold Py.round. rewrite E. reflexivity.
Qed.

(** Rounding to the nearest integer moves a number by at most one half. *)
Lemma round_half_even_close (x : Q) :
  Qabs (inject_Z (Py.round_half_even x) - x) <= 1 # 2.
Proof.
  unfold Py.round_half_even.
  pose proof (Qfloor_le x) as Hlo. pose proof (Qlt_floor x) as Hhi.
  rewrite inject_Z_plus in Hhi. change (inject_Z 1) with 1 in Hhi.
  apply Qabs_Qle_condition.
  destruct (Qcompare_spec (x - inject_Z (Qfloor x)) (1 # 2)) as [E | L | G].
  - destruct (Z.even (Qfloor x));
      [| rewrite inject_Z_plus; change (inject_Z 1) with 1]; split; lra.
  - split; lra.
  - rewrite inject_Z_plus. change (inject_Z 1) with 1. split; lra.
Qed.

Lemma scale_pos (n : nat) : 0 < inject_Z (10 ^ Z.of_nat n).
Proof.
  change 0 with (inject_Z 0). rewrite <- Zlt_Qlt.
  apply Z.pow_pos_nonneg; lia.
Qed.

(** [round(x, n)] moves [x] by at most half a unit of the [n]-th decimal. *)
Lemma round_close (x : Q) (n : nat) :
  Qabs (Py.round x n - x) <= (1 # 2) / inject_Z (10 ^ Z.of_nat n).
Proof.
  unfold Py.round.
  set (scale := inject_Z (10 ^ Z.of_nat n)).
  pose proof (scale_pos n) as Hs. fold scale in Hs.
  pose proof (round_half_even_close (x * scale)) as H.
  set (r := inject_Z (Py.round_half_even (x * scale))) in *.
  assert (E : r / scale - x == (r - x * scale) / scale) by (field; lra).
  rewrite E. unfold Qdiv at 1. rewrite Qabs_Qmult.
  rewrite (Qabs_pos (/ scale)) by (apply Qlt_le_weak, Qinv_lt_0_compat, Hs).
  unfold Qdiv. apply Qmult_le_compat_r; [exact H |].
  apply Qlt_le_weak, Qinv_lt_0_compat, Hs.
Qed.

Lemma round4_close (x : Q) : Qabs (Py.round x 4 - x) <= 1 # 20000.
Proof.
  pose proof (round_close x 4) as H.
  assert (E : (1 # 2) / inject_Z (10 ^ Z.of_nat 4) == 1 # 20000) by reflexivity.
  rewrite E in H. exact H.
Qed.

End PyFacts.

(** ** The amortization formulas *)

Section Amortization.

Variables rate A : Q.

Lemma depreciate_insufficient (stop : Z) (CI fixed_capital : Q) :
  fixed_capital < A ->
  depreciate stop rate A CI fixed_capital = (CI, fixed_capital).
Proof.
  intros H. unfold depreciate. apply ltb_lt in H. rewrite H. reflexivity.
Qed.

(** With no iteration the result carries 0 and not [CI]. *)
Lemma depreciate_stop0 (CI fixed_capital : Q) :
  A <= fixed_capital ->
  depreciate 0 rate A CI fixed_capital = (Py.round 0 4, Py.round fixed_capital 4).
Proof.
  intros H. unfold depreciate. apply ltb_ge in H. rewrite H. reflexivity.
Qed.

Lemma appreciate_stop0 (CI fixed_capital : Q) :
  appreciate 0 rate A CI fixed_capital = (Py.round CI 4, Py.round fixed_capital 4).
Proof. reflexivity. Qed.

(** The inner loop and the shortfall add up to one [A] per index. *)
Lemma series_shortfall_gen (l : list nat) (ans : Q) :
  fold_left
    (fun ans j => ans + (Py.pow (100 - rate) (j - 1) / Py.pow 100 (j - 1)) * A)
    l ans
  + fold_right
      (fun j acc =>
         (1 - Py.pow (100 - rate) (j - 1) / Py.pow 100 (j - 1)) * A + acc)
      0 l
  == ans + inject_Z (Z.of_nat (List.length l)) * A.
Proof.
  revert ans. induction l as [| j l IH]; intros ans.
  - simpl. ring.
  - cbn [fold_left fold_right List.length]. rewrite Nat2Z.inj_succ.
    unfold Z.succ. rewrite inject_Z_plus.
    change (inject_Z 1) with 1.
    set (t := Py.pow (100 - rate) (j - 1) / Py.pow 100 (j - 1)) in *.
    specialize (IH (ans + t * A)).
    set (L := fold_left _ l (ans + t * A)) in *.
    set (S := fold_right _ 0 l) in *.
    lra.
Qed.

Lemma series_shortfall (i : nat) (CI : Q) :
  depreciate_series rate A i CI + depreciate_shortfall rate A i
  == CI + inject_Z (Z.of_nat i) * A.
Proof.
  unfold depreciate_series, depreciate_shortfall.
  rewrite series_shortfall_gen, length_seq. reflexivity.
Qed.

(** With capital for every iteration the outer loop runs to its end. *)
Lemma depreciate_loop_full (CI : Q) (n s : nat) (ans fixed_capital : Q) :
  0 <= A ->
  inject_Z (Z.of_nat (S n)) * A <= fixed_capital ->
  depreciate_loop rate A CI (seq s (S n)) ans fixed_capital
  =p= (depreciate_series rate A (s + n) CI,
       fixed_capital - inject_Z (Z.of_nat (S n)) * A).
Proof.
  intros HA. revert s ans fixed_capital.
  induction n as [| n IH]; intros s ans fc Hfc.
  - cbn [seq depreciate_loop].
    change (inject_Z (Z.of_nat 1)) with 1 in *.
    assert (Hge : Py.ltb fc A = false) by (apply ltb_ge; lra).
    rewrite Hge, Nat.add_0_r. split; cbn [fst snd]; [reflexivity | ring].
  - rewrite Nat2Z.inj_succ in Hfc |- *. unfold Z.succ in Hfc |- *.
    rewrite inject_Z_plus in Hfc |- *. change (inject_Z 1) with 1 in *.
    assert (Hn : 0 <= inject_Z (Z.of_nat (S n)))
      by (change 0 with (inject_Z 0); rewrite <- Zle_Qle; lia).
    assert (Hge : Py.ltb fc A = false) by (apply ltb_ge; nra).
    change (seq s (S (S n))) with (s :: seq (S s) (S n)).
    cbn [depreciate_loop]. rewrite Hge.
    destruct (IH (S s) (depreciate_series rate A s CI) (fc - A)) as [E1 E2];
      [lra |].
    cbn [fst snd] in E1, E2. split; cbn [fst snd].
    + rewrite E1. replace (S s + n)%nat with (s + S n)%nat by lia. reflexivity.
    + rewrite E2. ring.
Qed.

(** Every iteration of [appreciate_loop] moves [A] from one pool to the
    other; only the growth changes the sum. *)
Lemma appreciate_loop_sum (n : nat) (ans fixed_capital : Q) :
  let r := appreciate_loop rate A n ans fixed_capital in
  fst r + snd r == ans + fixed_capital + appreciate_growth rate A n ans.
Proof.
  revert ans fixed_capital. induction n as [| n IH]; intros ans fc.
  - cbn. ring.
  - cbn [appreciate_loop appreciate_growth].
    destruct (Py.gtb ((1 + rate / 100) * ans) A).
    + cbv zeta in IH |- *. rewrite IH. ring.
    + cbn [fst snd]. ring.
Qed.

End Amortization.

(** Two numbers rounded to 4 decimals add up to their exact sum within one
    unit of the fourth decimal. *)
Lemma rounded_sum_close (a b t : Q) :
  a + b == t -> Qabs (Py.round a 4 + Py.round b 4 - t) <= 1 # 10000.
Proof.
  intros E.
  pose proof (round4_close a) as Ha. pose proof (round4_close b) as Hb.
  apply Qabs_Qle_condition in Ha. apply Qabs_Qle_condition in Hb.
  apply Qabs_Qle_condition. split; lra.
Qed.

Lemma depreciate_shortfall_one (rate A : Q) : depreciate_shortfall rate A 1 == 0.
Proof.
  unfold depreciate_shortfall, Py.pow. cbn [seq fold_right Nat.sub Z.of_nat Qpower].
  field.
Qed.

(** At rate 0 every unit enters the investment whole. *)
Lemma depreciate_shortfall_rate0 (rate A : Q) (stop : nat) :
  rate == 0 -> depreciate_shortfall rate A stop == 0.
Proof.
  intros E. unfold depreciate_shortfall.
  induction (seq 1 stop) as [| j l IH]; [reflexivity |].
  cbn [fold_right]. rewrite IH.
  assert (P : 0 < Py.pow 100 (j - 1))
    by (unfold Py.pow; apply Qpower_0_lt; reflexivity).
  assert (E1 : Py.pow (100 - rate) (j - 1) == Py.pow 100 (j - 1)).
  { unfold Py.pow. apply Qpower_comp; [rewrite E; ring | reflexivity]. }
  rewrite E1. field. lra.
Qed.

(** C1 (the code departs from it): with [stop = 0] and enough capital,
    [depreciate] returns an investment of 0 whatever [CI] was; at
    [depreciate(stop=0, rate=10, A=10, CI=5, fixed_capital=1000)] the result
    is [(0, 1000)] and not the inputs [(5, 1000)]. *)
Theorem depreciate_stop0_loses_investment :
  depreciate 0 10 10 5 1000 =p= (0, 1000)
  /\ ~ depreciate 0 10 10 5 1000 =p= (5, 1000).
Proof.
  split.
  - vm_compute. split; reflexivity.
  - intros [H _]. vm_compute in H. discriminate H.
Qed.

(** C5: [depreciate(stop=1, rate=10, A=10, CI=0, fixed_capital=1000)] returns
    [(10.0, 990.0)]. *)
Theorem depreciate_one_step_example :
  depreciate 1 10 10 0 1000 =p= (10, 990).
Proof. vm_compute. split; reflexivity. Qed.

(** C6: [appreciate(stop=1, rate=10, A=10, CI=10, fixed_capital=990)] returns
    [(1.0, 1000.0)]: the investment grows to 11, which exceeds [A = 10], so
    [A] goes back to the capital and 1 stays invested. *)
Theorem appreciate_one_step_example :
  (1 + 10 / 100) * 10 == 11
  /\ Py.gtb ((1 + 10 / 100) * 10) 10 = true
  /\ appreciate 1 10 10 10 990 =p= (1, 1000).
Proof.
  split; [reflexivity |]. split; [reflexivity |].
  vm_compute. split; reflexivity.
Qed.


Lemma Qeq_bool_pos (x : Q) : 0 < x -> Qeq_bool x 0 = false.
Proof.
  intros H. destruct (Qeq_bool x 0) eqn:E; [| reflexivity].
  apply Qeq_bool_iff in E. lra.
Qed.

(** ** The loop of the class *)

Section RunBot.

Import TradingBot.

Variables (self : t) (csv_file : store) (x : exchange).

Lemma trade_guarded (order_type : side) (current_price : Q) :
  let s := trade self csv_file x order_type current_price in
  (s_bot s = self /\ s_store s = csv_file
   /\ forall o, In o (s_orders s) -> o_accepted o = false)
  \/ (exists o, s_orders s = [o] /\ o_accepted o = true
                /\ s_bot s = set_last_trade_price self current_price
                /\ s_store s = _save_state (s_bot s) csv_file
                /\ s_control s = Continue).
Proof.
  unfold trade.
  destruct (_get_quantity_to_trade self x) as [[quantity order_value] |];
    [| left; cbn; intuition].
  destruct (Py.gtb quantity 0); [| left; cbn; intuition].
  destruct (_get_valid_price x current_price) as [limit_price |];
    [| left; cbn; intuition].
  unfold _place_order. cbn [o_accepted].
  destruct (order_accepted x) eqn:Acc.
  - right. eexists. cbn. repeat split.
  - left. cbn. repeat split. intros o [<- | []]. reflexivity.
Qed.

(** One iteration of [run_bot] either leaves the ledger and the file as they
    were, with no accepted order, or has exactly one order, accepted, and
    then sets the last trade price and appends the new state. *)
Lemma run_bot_step_guarded :
  let s := run_bot_step self csv_file x in
  (s_bot s = self /\ s_store s = csv_file
   /\ forall o, In o (s_orders s) -> o_accepted o = false)
  \/ (exists o current_price,
         market_price x = Some current_price
         /\ s_orders s = [o] /\ o_accepted o = true
         /\ s_bot s = set_last_trade_price self current_price
         /\ s_store s = _save_state (s_bot s) csv_file
         /\ s_control s = Continue).
Proof.
  unfold run_bot_step.
  destruct (market_price x) as [current_price |]; [| left; cbn; intuition].
  destruct (Qeq_bool current_price 0); [left; cbn; intuition |].
  destruct (last_trade_price self) as [ltp |]; [| left; cbn; intuition].
  destruct (Qeq_bool ltp 0); [left; cbn; intuition |].
  destruct (decide self ltp current_price) as [[|] |].
  - destruct (Py.geb _ _); [| left; cbn; intuition].
    destruct (trade_guarded Buy current_price) as [H | [o H]];
      [left; exact H | right; exists o, current_price; intuition].
  - destruct (Py.geb _ _); [| left; cbn; intuition].
    destruct (trade_guarded Sell current_price) as [H | [o H]];
      [left; exact H | right; exists o, current_price; intuition].
  - left; cbn; intuition.
Qed.

(** The loop never writes the two pools. *)
Lemma run_bot_step_pools :
  let s := run_bot_step self csv_file x in
  fixed_capital (s_bot s) = fixed_capital self
  /\ current_investment (s_bot s) = current_investment self.
Proof.
  destruct run_bot_step_guarded as [[E _] | [o [cp [_ [_ [_ [E _]]]]]]];
    cbv zeta; rewrite E; split; reflexivity.
Qed.

(** An iteration that leaves the loop has changed nothing and placed no
    order. *)
Lemma run_bot_step_break :
  s_control (run_bot_step self csv_file x) = Break ->
  run_bot_step self csv_file x = mk_step self csv_file [] Break.
Proof.
  unfold run_bot_step.
  destruct (market_price x) as [current_price |]; [| discriminate].
  destruct (Qeq_bool current_price 0); [discriminate |].
  destruct (last_trade_price self) as [ltp |]; [| discriminate].
  destruct (Qeq_bool ltp 0); [discriminate |].
  assert (T : forall sd, s_control (trade self csv_file x sd current_price) = Break
                         -> False).
  { intros sd. destruct (trade_guarded sd current_price) as [H | [o H]].
    - unfold trade in *.
      destruct (_get_quantity_to_trade self x) as [[q v] |]; [| discriminate].
      destruct (Py.gtb q 0); [| discriminate].
      destruct (_get_valid_price x current_price); [| discriminate].
      destruct (o_accepted _); discriminate.
    - destruct H as (_ & _ & _ & _ & C). congruence. }
  destruct (decide self ltp current_price) as [[|] |]; [| | discriminate].
  - destruct (Py.geb _ _); [intros H; destruct (T _ H) | reflexivity].
  - destruct (Py.geb _ _); [intros H; destruct (T _ H) | reflexivity].
Qed.


(** Once an iteration has left the loop, [run_bot] has returned: whatever the
    exchange would answer later, nothing is changed and no order is placed. *)
Lemma run_loop_break_terminal (later : list exchange) :
  s_control (run_bot_step self csv_file x) = Break ->
  run_loop self csv_file (x :: later) = mk_run self csv_file [] Halted.
Proof.
  intros H. cbn [run_loop]. rewrite (run_bot_step_break H). reflexivity.
Qed.

End RunBot.

(** Over any number of iterations of [run_bot]: as long as no order has been
    accepted, the ledger and the file are as they were at the start. *)
Lemma run_loop_unchanged_without_accepted_order
      (xs : list TradingBot.exchange) (self : TradingBot.t)
      (csv_file : TradingBot.store) :
  (forall o, In o (TradingBot.r_orders (TradingBot.run_loop self csv_file xs))
             -> o_accepted o = false) ->
  TradingBot.r_bot (TradingBot.run_loop self csv_file xs) = self
  /\ TradingBot.r_store (TradingBot.run_loop self csv_file xs) = csv_file.
Proof.
  revert self csv_file. induction xs as [| x xs IH]; intros self csv_file H.
  - split; reflexivity.
  - cbn [TradingBot.run_loop] in *.
    pose proof (run_bot_step_guarded self csv_file x) as G. cbv zeta in G.
    destruct (TradingBot.s_control (TradingBot.run_bot_step self csv_file x))
      eqn:C; cbn [TradingBot.r_bot TradingBot.r_store TradingBot.r_orders] in *.
    + destruct G as [(Eb & Es & _) | (o & cp & _ & Eo & Acc & _)].
      * rewrite Eb, Es in *. apply IH. intros o Ho. apply H, in_or_app.
        right. exact Ho.
      * rewrite Eo in H. specialize (H o (or_introl eq_refl)). congruence.
    + destruct G as [(Eb & Es & _) | (o & cp & _ & _ & _ & _ & _ & K)];
        [split; assumption | congruence].
    + destruct G as [(Eb & Es & _) | (o & cp & _ & _ & _ & _ & _ & K)];
        [split; assumption | congruence].
Qed.

(** ** The state file of the class *)

Section StateStore.

Import TradingBot.

Lemma last_opt_app {A : Type} (l : list A) (x : A) : last_opt (l ++ [x]) = Some x.
Proof.
  induction l as [| y l IH]; [reflexivity |].
  cbn [app last_opt]. rewrite IH.
  destruct (l ++ [x]) eqn:E; [destruct l; discriminate | reflexivity].
Qed.

(** Reading a file just written finds the row just written. *)
Lemma saved_row_is_last (self : t) (csv_file : store) (p : Q) :
  last_trade_price self = Some p ->
  exists rows,
    _save_state self csv_file = Some rows
    /\ last_opt rows
       = Some (mk_row (amortized_investment self) (rate self)
                      (current_investment self) (fixed_capital self) p).
Proof.
  intros H. unfold _save_state. rewrite H.
  destruct csv_file as [rows |]; eexists; split; try reflexivity.
  apply last_opt_app.
Qed.

(** [_save_state] only appends. *)
Lemma _save_state_appends (self : t) (rows : list row) :
  exists new, _save_state self (Some rows) = Some (rows ++ new).
Proof.
  unfold _save_state. destruct (last_trade_price self).
  - eexists. reflexivity.
  - exists []. rewrite app_nil_r. reflexivity.
Qed.

End StateStore.

(** C10: without last trade price [_save_state] writes nothing: the file is
    as it was, whatever the other fields of the ledger hold; so a bot started
    without a file has none until a first price is known. *)
Theorem save_without_price (self : TradingBot.t) (csv_file : TradingBot.store) :
  TradingBot.last_trade_price self = None ->
  TradingBot._save_state self csv_file = csv_file
  /\ (forall xs,
         TradingBot.r_store (TradingBot.run_bot self csv_file None xs) = csv_file).
Proof.
  intros H. split.
  - unfold TradingBot._save_state. rewrite H. reflexivity.
  - intros xs. unfold TradingBot.run_bot. rewrite H. reflexivity.
Qed.

Lemma save_without_price_witness :
  TradingBot.last_trade_price (TradingBot.mk 10 5 800 None 30) = None
  /\ TradingBot._save_state (TradingBot.mk 10 5 800 None 30)
                            (Some [TradingBot.mk_row 10 5 10 990 94])
     = Some [TradingBot.mk_row 10 5 10 990 94].
Proof.
  split; [reflexivity |].
  apply (save_without_price (TradingBot.mk 10 5 800 None 30)
                            (Some [TradingBot.mk_row 10 5 10 990 94]) eq_refl).
Defined.

(** * Further properties of the code *)

(** ** Rounding keeps the sign *)

Lemma round_half_even_nonneg (x : Q) : 0 <= x -> (0 <= Py.round_half_even x)%Z.
Proof.
  intros H. unfold Py.round_half_even.
  assert (F : (0 <= Qfloor x)%Z).
  { rewrite <- (Qfloor_Z 0). apply Qfloor_resp_le. exact H. }
  destruct (_ ?= _); [destruct (Z.even _) | |]; lia.
Qed.

Lemma round_nonneg (x : Q) (n : nat) : 0 <= x -> 0 <= Py.round x n.
Proof.
  intros H. unfold Py.round. pose proof (scale_pos n) as Hs.
  set (scale := inject_Z (10 ^ Z.of_nat n)) in *.
  assert (Hx : 0 <= x * scale) by nra.
  pose proof (round_half_even_nonneg _ Hx) as Hr.
  rewrite Zle_Qle in Hr. change (inject_Z 0) with 0 in Hr.
  apply Qle_shift_div_l; [exact Hs | lra].
Qed.

(** ** [depreciate] and [appreciate] beyond one step *)

(** Once the capital is below [A] the outer loop of [depreciate] does
    nothing more, whatever indices are left. *)
Lemma depreciate_loop_stops (rate A CI : Q) (done todo : list nat)
      (ans fixed_capital : Q) :
  snd (depreciate_loop rate A CI done ans fixed_capital) < A ->
  depreciate_loop rate A CI (done ++ todo) ans fixed_capital
  = depreciate_loop rate A CI done ans fixed_capital.
Proof.
  revert ans fixed_capital.
  induction done as [| i done IH]; intros ans fc H.
  - cbn in *. destruct todo as [| j todo]; [reflexivity |].
    cbn [depreciate_loop]. apply ltb_lt in H. rewrite H. reflexivity.
  - cbn [app depreciate_loop] in *.
    destruct (Py.ltb fc A); [reflexivity | apply IH, H].
Qed.

(** The capital never goes below 0 in the outer loop of [depreciate]. *)
Lemma depreciate_loop_capital_nonneg (rate A CI : Q) (todo : list nat)
      (ans fixed_capital : Q) :
  0 <= fixed_capital ->
  0 <= snd (depreciate_loop rate A CI todo ans fixed_capital).
Proof.
  revert ans fixed_capital.
  induction todo as [| i todo IH]; intros ans fc H; [exact H |].
  cbn [depreciate_loop]. destruct (Py.ltb fc A) eqn:L; [exact H |].
  apply IH. apply ltb_ge in L. lra.
Qed.


(** The investment never goes below 0 in [appreciate_loop] when it starts at
    0 or more and the rate is at least -100. *)
Lemma appreciate_loop_investment_nonneg (rate A : Q) (n : nat)
      (ans fixed_capital : Q) :
  -(100) <= rate -> 0 <= ans ->
  0 <= fst (appreciate_loop rate A n ans fixed_capital).
Proof.
  intros Hr. revert ans fixed_capital.
  induction n as [| n IH]; intros ans fc H; [exact H |].
  cbn [appreciate_loop].
  assert (G : 0 <= (1 + rate / 100) * ans).
  { apply Qmult_le_0_compat; [| exact H].
    assert (E : 1 + rate / 100 == (100 + rate) / 100) by field.
    rewrite E. apply Qle_shift_div_l; lra. }
  destruct (Py.gtb _ A) eqn:T; [| exact G].
  apply IH. apply gtb_gt in T.
  destruct (Qlt_le_dec A 0) as [N | P]; lra.
Qed.

(** On exact amounts: with capital for exactly [k >= 1] units the loop
    invests [k] units and stops. *)
Lemma depreciate_loop_exhausts
        (stop : Z) (k : nat) (rate A CI fixed_capital : Q) :
  (1 <= k)%nat -> (Z.of_nat k <= stop)%Z -> 0 < A ->
  inject_Z (Z.of_nat k) * A <= fixed_capital ->
  fixed_capital < (inject_Z (Z.of_nat k) + 1) * A ->
  depreciate stop rate A CI fixed_capital
  = depreciate (Z.of_nat k) rate A CI fixed_capital
  /\ snd (depreciate stop rate A CI fixed_capital)
     == Py.round (fixed_capital - inject_Z (Z.of_nat k) * A) 4.
Proof.
  intros Hk Hstop HA Hlo Hhi.
  destruct k as [| n]; [lia |].
  destruct (depreciate_loop_full rate A CI n 1 0 fixed_capital) as [E1 E2];
    [lra | exact Hlo |].
  cbn [fst snd] in E1, E2.
  assert (Hsplit : Py.range1 stop
                   = (seq 1 (S n) ++ seq (1 + S n) (Z.to_nat stop - S n))%list).
  { unfold Py.range1. rewrite <- seq_app. f_equal. lia. }
  assert (Hk' : Py.range1 (Z.of_nat (S n)) = seq 1 (S n)).
  { unfold Py.range1. rewrite Nat2Z.id. reflexivity. }
  assert (Hloop : depreciate_loop rate A CI (Py.range1 stop) 0 fixed_capital
                  = depreciate_loop rate A CI (seq 1 (S n)) 0 fixed_capital).
  { rewrite Hsplit. apply depreciate_loop_stops. rewrite E2. lra. }
  unfold depreciate. rewrite Hloop, Hk'.
  split; [reflexivity |].
  destruct (Py.ltb fixed_capital A) eqn:L.
  - apply ltb_lt in L.
    assert (0 <= inject_Z (Z.of_nat n))
      by (change 0 with (inject_Z 0); rewrite <- Zle_Qle; lia).
    rewrite Nat2Z.inj_succ in Hlo. unfold Z.succ in Hlo.
    rewrite inject_Z_plus in Hlo. change (inject_Z 1) with 1 in Hlo. nra.
  - destruct (depreciate_loop rate A CI (seq 1 (S n)) 0 fixed_capital)
      as [ans fc'].
    cbn [snd] in *. rewrite E2. reflexivity.
Qed.

(** A whole number is its own rounding. *)
Lemma round_inject_Z (z : Z) (n : nat) : Py.round (inject_Z z) n == inject_Z z.
Proof.
  unfold Py.round. pose proof (scale_pos n) as Hs.
  set (scale := (10 ^ Z.of_nat n)%Z) in *.
  assert (E : inject_Z z * inject_Z scale == inject_Z (z * scale))
    by (rewrite inject_Z_mult; reflexivity).
  rewrite (round_half_even_comp _ _ E).
  assert (R : Py.round_half_even (inject_Z (z * scale)) = (z * scale)%Z).
  { unfold Py.round_half_even. rewrite Qfloor_Z.
    assert (C : (inject_Z (z * scale) - inject_Z (z * scale) ?= 1 # 2) = Lt).
    { apply Qlt_alt. set (w := inject_Z (z * scale)).
      assert (W : w - w == 0) by ring. rewrite W. reflexivity. }
    rewrite C. reflexivity. }
  rewrite R, inject_Z_mult. field. lra.
Qed.

(** X1: on whole amounts, with capital for exactly [k] units
    ([k * A <= fixed_capital < (k + 1) * A], [A > 0], [1 <= k <= 155]) and a
    rate between 0 and 200, [depreciate] invests [k] units and stops: every
    [stop >= k] gives the result of [stop = k], and the capital returned is
    [fixed_capital - k * A]. *)
Theorem depreciate_stops_when_capital_runs_out
        (stop : Z) (k : nat) (rate CI : Q) (A fixed_capital : Z) :
  (1 <= k)%nat -> (k <= 155)%nat -> (Z.of_nat k <= stop)%Z ->
  0 <= rate -> rate <= 200 ->
  (0 < A)%Z -> (Z.of_nat k * A <= fixed_capital)%Z ->
  (fixed_capital < (Z.of_nat k + 1) * A)%Z ->
  (fixed_capital <= 2 ^ 53)%Z ->
  depreciate stop rate (inject_Z A) CI (inject_Z fixed_capital)
  = depreciate (Z.of_nat k) rate (inject_Z A) CI (inject_Z fixed_capital)
  /\ snd (depreciate stop rate (inject_Z A) CI (inject_Z fixed_capital))
     == inject_Z (fixed_capital - Z.of_nat k * A).
Proof.
  intros Hk _ Hstop _ _ HA Hlo Hhi _.
  assert (QA : 0 < inject_Z A)
    by (change 0 with (inject_Z 0); rewrite <- Zlt_Qlt; exact HA).
  assert (Qlo : inject_Z (Z.of_nat k) * inject_Z A <= inject_Z fixed_capital)
    by (rewrite <- inject_Z_mult, <- Zle_Qle; exact Hlo).
  assert (Qhi : inject_Z fixed_capital < (inject_Z (Z.of_nat k) + 1) * inject_Z A).
  { change 1 with (inject_Z 1).
    rewrite <- inject_Z_plus, <- inject_Z_mult, <- Zlt_Qlt. exact Hhi. }
  destruct (depreciate_loop_exhausts stop k rate (inject_Z A) CI
              (inject_Z fixed_capital) Hk Hstop QA Qlo Qhi) as [E1 E2].
  split; [exact E1 |].
  rewrite E2.
  assert (E : inject_Z fixed_capital - inject_Z (Z.of_nat k) * inject_Z A
              == inject_Z (fixed_capital - Z.of_nat k * A)).
  { unfold Z.sub. rewrite inject_Z_plus, inject_Z_opp, inject_Z_mult. ring. }
  rewrite (round_comp _ _ E 4%nat 4%nat eq_refl). apply round_inject_Z.
Qed.

Lemma depreciate_stops_when_capital_runs_out_witness :
  depreciate 5 10 (inject_Z 10) 0 (inject_Z 25)
  = depreciate (Z.of_nat 2) 10 (inject_Z 10) 0 (inject_Z 25)
  /\ snd (depreciate 5 10 (inject_Z 10) 0 (inject_Z 25))
     == inject_Z (25 - Z.of_nat 2 * 10).
Proof.
  apply (depreciate_stops_when_capital_runs_out 5 2 10 0 10 25);
    try lia; vm_compute; discriminate.
Defined.

(** X2: [depreciate] never overdraws: for up to 155 iterations and a rate
    between 0 and 200, the range in which every power of the series is a
    finite float, it returns a capital of 0 or more when given one, for
    every [A] and [CI]. *)
Theorem depreciate_capital_nonneg (stop : Z) (rate A CI fixed_capital : Q) :
  (stop <= 155)%Z -> 0 <= rate -> rate <= 200 ->
  0 <= fixed_capital ->
  0 <= snd (depreciate stop rate A CI fixed_capital).
Proof.
  intros _ _ _ H. unfold depreciate.
  destruct (Py.ltb fixed_capital A); [exact H |].
  pose proof (depreciate_loop_capital_nonneg rate A CI (Py.range1 stop) 0
                                             fixed_capital H) as L.
  destruct (depreciate_loop rate A CI (Py.range1 stop) 0 fixed_capital)
    as [ans fc'].
  cbn [snd] in *. apply round_nonneg, L.
Qed.

Lemma depreciate_capital_nonneg_witness :
  0 <= snd (depreciate 5 10 10 0 25).
Proof.
  apply (depreciate_capital_nonneg 5 10 10 0 25); try lia; vm_compute; discriminate.
Defined.


(** X5: [appreciate] never returns an investment below 0 when it gets one of
    0 or more and the rate is at least -100, for every [stop] and [A]. *)
Theorem appreciate_investment_nonneg (stop : Z) (rate A CI fixed_capital : Q) :
  -(100) <= rate -> 0 <= CI ->
  0 <= fst (appreciate stop rate A CI fixed_capital).
Proof.
  intros Hr H. unfold appreciate.
  pose proof (appreciate_loop_investment_nonneg rate A (Z.to_nat stop) CI
                                                fixed_capital Hr H) as L.
  destruct (appreciate_loop rate A (Z.to_nat stop) CI fixed_capital)
    as [ans fc'].
  cbn [fst] in *. apply round_nonneg, L.
Qed.

Lemma appreciate_investment_nonneg_witness :
  0 <= fst (appreciate 3 10 10 25 990).
Proof.
  apply (appreciate_investment_nonneg 3 10 10 25 990); vm_compute; discriminate.
Defined.

(** ** Price rounding and sizing of the class *)

(** Filters other than LOT_SIZE leave the step size as it is. *)
Lemma read_filters_no_lot_size (filters : list filter) (step_size min_notional : Q) :
  (forall s, ~ In (LOT_SIZE s) filters) ->
  fst (read_filters filters step_size min_notional) = step_size.
Proof.
  revert step_size min_notional.
  induction filters as [| f fs IH]; intros st mn H; [reflexivity |].
  assert (Hfs : forall s, ~ In (LOT_SIZE s) fs)
    by (intros s Hin; apply (H s); right; exact Hin).
  destruct f as [s | m | t |]; cbn [read_filters]; try (apply IH, Hfs).
  exfalso. apply (H s). left. reflexivity.
Qed.

(** X8: when the symbol information has no LOT_SIZE filter the step size
    stays 0.0 and the sizing does not return (it calls [exit()]), whatever
    the other filters, the amount and the price are. *)
Theorem sizing_exits_without_lot_size (amount : Q) (filters : list filter)
        (current_price : Q) :
  (forall s, ~ In (LOT_SIZE s) filters) ->
  quantity_from_info amount filters current_price = None.
Proof.
  intros H. unfold quantity_from_info.
  pose proof (read_filters_no_lot_size filters 0 0 H) as E.
  destruct (read_filters filters 0 0) as [st mn]. cbn [fst] in E. subst st.
  reflexivity.
Qed.

Lemma sizing_exits_without_lot_size_witness :
  quantity_from_info 10 [MIN_NOTIONAL 5; PRICE_FILTER (1 # 100); OTHER_FILTER] 94
  = None.
Proof.
  apply (sizing_exits_without_lot_size
           10 [MIN_NOTIONAL 5; PRICE_FILTER (1 # 100); OTHER_FILTER] 94).
  intros s [H | [H | [H | []]]]; discriminate H.
Defined.

(** ** Whole runs of the class *)

(** The orders of one iteration: positive quantity, the side of the branch,
    a limit price. *)
Lemma trade_orders (self : TradingBot.t) (csv_file : TradingBot.store)
      (x : TradingBot.exchange) (order_type : side) (current_price : Q) (o : order) :
  In o (TradingBot.s_orders (TradingBot.trade self csv_file x order_type current_price)) ->
  0 < o_quantity o /\ o_side o = order_type /\ o_price o <> None.
Proof.
  unfold TradingBot.trade.
  destruct (TradingBot._get_quantity_to_trade self x) as [[q v] |]; [| intros []].
  destruct (Py.gtb q 0) eqn:G; [| intros []]. apply gtb_gt in G.
  destruct (TradingBot._get_valid_price x current_price) as [lp |]; [| intros []].
  unfold TradingBot._place_order. cbn [o_accepted].
  destruct (TradingBot.order_accepted x); intros [<- | []]; cbn;
    (split; [exact G | split; [reflexivity | discriminate]]).
Qed.

Lemma run_bot_step_orders (self : TradingBot.t) (csv_file : TradingBot.store)
      (x : TradingBot.exchange) (o : order) :
  In o (TradingBot.s_orders (TradingBot.run_bot_step self csv_file x)) ->
  0 < o_quantity o /\ o_price o <> None
  /\ exists current_price ltp,
       TradingBot.market_price x = Some current_price
       /\ TradingBot.last_trade_price self = Some ltp
       /\ TradingBot.decide self ltp current_price = Trigger (o_side o).
Proof.
  unfold TradingBot.run_bot_step.
  destruct (TradingBot.market_price x) as [cp |]; [| intros []].
  destruct (Qeq_bool cp 0); [intros [] |].
  destruct (TradingBot.last_trade_price self) as [ltp |]; [| intros []].
  destruct (Qeq_bool ltp 0); [intros [] |].
  destruct (TradingBot.decide self ltp cp) as [[|] |] eqn:D; [| | intros []].
  - destruct (Py.geb _ _); [| intros []]. intros H.
    destruct (trade_orders _ _ _ _ _ _ H) as (Hq & Hs & Hp).
    split; [exact Hq |]. split; [exact Hp |].
    exists cp, ltp. rewrite Hs. repeat split. exact D.
  - destruct (Py.geb _ _); [| intros []]. intros H.
    destruct (trade_orders _ _ _ _ _ _ H) as (Hq & Hs & Hp).
    split; [exact Hq |]. split; [exact Hp |].
    exists cp, ltp. rewrite Hs. repeat split. exact D.
Qed.

Lemma filter_none_accepted (l : list order) :
  (forall o, In o l -> o_accepted o = false) -> List.filter o_accepted l = [].
Proof.
  induction l as [| o l IH]; intros H; [reflexivity |].
  cbn [List.filter]. rewrite (H o (or_introl eq_refl)).
  apply IH. intros o' Ho'. apply H. right. exact Ho'.
Qed.

(** X10: over a whole run of [run_bot] the loop never writes the amount, the
    rate or the two pools: after any number of iterations, with any answers
    of the exchange, they are what they were at the start. *)
Theorem run_keeps_amount_rate_and_pools
        (xs : list TradingBot.exchange) (self : TradingBot.t)
        (csv_file : TradingBot.store) :
  let r := TradingBot.run_loop self csv_file xs in
  TradingBot.amortized_investment (TradingBot.r_bot r)
  = TradingBot.amortized_investment self
  /\ TradingBot.rate (TradingBot.r_bot r) = TradingBot.rate self
  /\ TradingBot.fixed_capital (TradingBot.r_bot r) = TradingBot.fixed_capital self
  /\ TradingBot.current_investment (TradingBot.r_bot r)
     = TradingBot.current_investment self.
Proof.
  cbv zeta. revert self csv_file.
  induction xs as [| x xs IH]; intros self csv_file; [repeat split |].
  cbn [TradingBot.run_loop].
  pose proof (run_bot_step_guarded self csv_file x) as G. cbv zeta in G.
  assert (E : TradingBot.amortized_investment
                (TradingBot.s_bot (TradingBot.run_bot_step self csv_file x))
              = TradingBot.amortized_investment self
              /\ TradingBot.rate
                   (TradingBot.s_bot (TradingBot.run_bot_step self csv_file x))
                 = TradingBot.rate self
              /\ TradingBot.fixed_capital
                   (TradingBot.s_bot (TradingBot.run_bot_step self csv_file x))
                 = TradingBot.fixed_capital self
              /\ TradingBot.current_investment
                   (TradingBot.s_bot (TradingBot.run_bot_step self csv_file x))
                 = TradingBot.current_investment self).
  { destruct G as [(Eb & _) | (o & cp & _ & _ & _ & Eb & _)];
      rewrite Eb; repeat split. }
  destruct (TradingBot.s_control (TradingBot.run_bot_step self csv_file x));
    cbn [TradingBot.r_bot]; [| exact E | exact E].
  destruct E as (E1 & E2 & E3 & E4).
  destruct (IH (TradingBot.s_bot (TradingBot.run_bot_step self csv_file x))
               (TradingBot.s_store (TradingBot.run_bot_step self csv_file x)))
    as (I1 & I2 & I3 & I4).
  repeat split; congruence.
Qed.

(** X11: the state file is an append-only record of the accepted orders:
    after any run the rows that were in the file are still there, in place,
    and exactly one row has been added for each accepted order. *)
Theorem run_appends_one_row_per_accepted_order
        (xs : list TradingBot.exchange) (self : TradingBot.t)
        (csv_file : TradingBot.store) :
  let r := TradingBot.run_loop self csv_file xs in
  exists new : list TradingBot.row,
    rows_of (TradingBot.r_store r) = (rows_of csv_file ++ new)%list
    /\ List.length new
       = List.length (List.filter o_accepted (TradingBot.r_orders r)).
Proof.
  cbv zeta. revert self csv_file.
  induction xs as [| x xs IH]; intros self csv_file.
  - exists []. cbn. rewrite app_nil_r. split; reflexivity.
  - cbn [TradingBot.run_loop].
    pose proof (run_bot_step_guarded self csv_file x) as G. cbv zeta in G.
    assert (S1 : exists new,
               rows_of (TradingBot.s_store (TradingBot.run_bot_step self csv_file x))
               = (rows_of csv_file ++ new)%list
               /\ List.length new
                  = List.length
                      (List.filter o_accepted
                         (TradingBot.s_orders
                            (TradingBot.run_bot_step self csv_file x)))).
    { destruct G as [(_ & Es & Ho) | (o & cp & _ & Eo & Acc & Eb & Es & _)].
      - exists []. rewrite Es, app_nil_r, (filter_none_accepted _ Ho).
        split; reflexivity.
      - rewrite Es, Eb, Eo. cbn [List.filter]. rewrite Acc.
        unfold TradingBot._save_state. cbn [TradingBot.last_trade_price
                                             TradingBot.set_last_trade_price].
        eexists [_]. destruct csv_file; cbn [rows_of app]; split; reflexivity. }
    destruct S1 as [new1 [R1 L1]].
    destruct (TradingBot.s_control (TradingBot.run_bot_step self csv_file x));
      cbn [TradingBot.r_store TradingBot.r_orders];
      [| exists new1; split; assumption | exists new1; split; assumption].
    destruct (IH (TradingBot.s_bot (TradingBot.run_bot_step self csv_file x))
                 (TradingBot.s_store (TradingBot.run_bot_step self csv_file x)))
      as [new2 [R2 L2]].
    exists (new1 ++ new2)%list. split.
    + rewrite R2, R1, app_assoc. reflexivity.
    + rewrite filter_app, !length_app. congruence.
Qed.

(** X13: every order [run_bot] places is a limit order for a positive
    quantity, whatever the exchange answers. *)
Theorem run_places_positive_limit_orders
        (xs : list TradingBot.exchange) (self : TradingBot.t)
        (csv_file : TradingBot.store) :
  Forall (fun o => 0 < o_quantity o /\ o_price o <> None)
         (TradingBot.r_orders (TradingBot.run_loop self csv_file xs)).
Proof.
  revert self csv_file.
  induction xs as [| x xs IH]; intros self csv_file; [constructor |].
  cbn [TradingBot.run_loop].
  assert (S1 : Forall (fun o => 0 < o_quantity o /\ o_price o <> None)
                      (TradingBot.s_orders (TradingBot.run_bot_step self csv_file x))).
  { apply Forall_forall. intros o Ho.
    destruct (run_bot_step_orders _ _ _ _ Ho) as (Hq & Hp & _).
    split; assumption. }
  destruct (TradingBot.s_control (TradingBot.run_bot_step self csv_file x));
    cbn [TradingBot.r_orders]; [| exact S1 | exact S1].
  apply Forall_app. split; [exact S1 | apply IH].
Qed.



(** X23: a run of [run_bot] in which no order was accepted has written
    nothing: the file is as it was, and so are the amount, the rate and the
    two pools; the last trade price is as it was when one was known at the
    start (else it is the first price observed, or still unknown). *)
Theorem run_bot_writes_only_on_accepted_order
        (self : TradingBot.t) (csv_file : TradingBot.store) (first : option Q)
        (xs : list TradingBot.exchange) :
  let run := TradingBot.run_bot self csv_file first xs in
  (forall o, In o (TradingBot.r_orders run) -> o_accepted o = false) ->
  TradingBot.r_store run = csv_file
  /\ TradingBot.amortized_investment (TradingBot.r_bot run)
     = TradingBot.amortized_investment self
  /\ TradingBot.rate (TradingBot.r_bot run) = TradingBot.rate self
  /\ TradingBot.fixed_capital (TradingBot.r_bot run)
     = TradingBot.fixed_capital self
  /\ TradingBot.current_investment (TradingBot.r_bot run)
     = TradingBot.current_investment self
  /\ (TradingBot.last_trade_price self <> None -> TradingBot.r_bot run = self).
Proof.
  cbv zeta. unfold TradingBot.run_bot.
  destruct (TradingBot.last_trade_price self) as [ltp |] eqn:L.
  - intros H.
    destruct (run_loop_unchanged_without_accepted_order xs self csv_file H)
      as [Eb Es].
    rewrite Eb, Es. repeat split.
  - destruct first as [current_price |];
      [| intros _; cbn; repeat split; intros H; congruence].
    destruct (Qeq_bool current_price 0);
      [intros _; cbn; repeat split; intros H; congruence |].
    intros H.
    destruct (run_loop_unchanged_without_accepted_order
                xs (TradingBot.set_last_trade_price self current_price)
                csv_file H) as [Eb Es].
    rewrite Eb, Es. repeat split. intros K. congruence.
Qed.

Lemma run_bot_writes_only_on_accepted_order_witness :
  let xs := [TradingBot.mk_exchange (Some 94) (1 # 10000) 5 94 (Some (1 # 100)) false;
             TradingBot.mk_exchange (Some 97) (1 # 10000) 5 97 (Some (1 # 100)) true] in
  let bot := TradingBot.mk 10 5 1000 (Some 100) 0 in
  TradingBot.r_store (TradingBot.run_bot bot None None xs) = None
  /\ (TradingBot.last_trade_price bot <> None ->
      TradingBot.r_bot (TradingBot.run_bot bot None None xs) = bot).
Proof.
  cbv zeta.
  destruct (run_bot_writes_only_on_accepted_order
              (TradingBot.mk 10 5 1000 (Some 100) 0) None None
              [TradingBot.mk_exchange (Some 94) (1 # 10000) 5 94 (Some (1 # 100)) false;
               TradingBot.mk_exchange (Some 97) (1 # 10000) 5 97 (Some (1 # 100)) true])
    as (Es & _ & _ & _ & _ & Eb).
  - vm_compute. intros o [<- | []]. reflexivity.
  - split; [exact Es | exact Eb].
Defined.

(** ** livePriceSimulator.py *)

(** What a simulator with rows left and not finished delivers. *)
Lemma calls_rows (rows : list (list string)) (k : nat) :
  Forall (fun row => row <> []) rows ->
  LivePriceSimulator.calls
    (List.length rows + k)
    (LivePriceSimulator.mk (Some rows) false)
  = ((map (fun row => LivePriceSimulator.Price (hd EmptyString row)) rows
      ++ repeat LivePriceSimulator.NoPrice k)%list,
     LivePriceSimulator.mk (Some []) (match k with O => false | S _ => true end)).
Proof.
  induction rows as [| row rows IH]; intros H.
  - cbn [List.length Nat.add map app]. destruct k as [| k]; [reflexivity |].
    cbn [LivePriceSimulator.calls LivePriceSimulator.get_next_price
         LivePriceSimulator.is_finished LivePriceSimulator.reader].
    assert (F : forall n,
               LivePriceSimulator.calls n (LivePriceSimulator.mk (Some []) true)
               = (repeat LivePriceSimulator.NoPrice n,
                  LivePriceSimulator.mk (Some []) true)).
    { induction n as [| n IHn]; [reflexivity |].
      cbn [LivePriceSimulator.calls LivePriceSimulator.get_next_price
           LivePriceSimulator.is_finished].
      rewrite IHn. reflexivity. }
    rewrite F. reflexivity.
  - inversion H as [| ? ? Hrow Hrows]; subst.
    destruct row as [| price cols]; [congruence |].
    cbn [List.length Nat.add LivePriceSimulator.calls
         LivePriceSimulator.get_next_price LivePriceSimulator.is_finished
         LivePriceSimulator.reader].
    rewrite (IH Hrows). cbn [map hd app].
    destruct k; destruct rows; reflexivity.
Qed.

(** X20: opened on a file with a header and rows that all have a first
    column, the simulator delivers the first column of every row, in the
    order of the file and skipping the header, and from then on [None] at
    every call. *)
Theorem simulator_delivers_every_row (header : list string)
        (rows : list (list string)) (k : nat) :
  Forall (fun row => row <> []) rows ->
  fst (LivePriceSimulator.calls
         (List.length rows + k)
         (LivePriceSimulator.open_file LivePriceSimulator.init
                                       (Some (header :: rows))))
  = (map (fun row => LivePriceSimulator.Price (hd EmptyString row)) rows
     ++ repeat LivePriceSimulator.NoPrice k)%list.
Proof.
  intros H. cbn [LivePriceSimulator.open_file LivePriceSimulator.init
                 LivePriceSimulator.is_finished].
  rewrite (calls_rows rows k H). reflexivity.
Qed.

Lemma simulator_delivers_every_row_witness :
  fst (LivePriceSimulator.calls
         (2 + 2)
         (LivePriceSimulator.open_file
            LivePriceSimulator.init
            (Some (["price"] :: [["28500"]; ["28550"; "x"]])%string)))
  = [LivePriceSimulator.Price "28500"; LivePriceSimulator.Price "28550";
     LivePriceSimulator.NoPrice; LivePriceSimulator.NoPrice]%string.
Proof.
  apply (simulator_delivers_every_row
           ["price"]%string [["28500"]; ["28550"; "x"]]%string 2).
  repeat constructor; discriminate.
Defined.

(** X21: once [is_finished] is set, every call returns [None] and changes
    nothing; this is the case from the start when the file is missing or
    has no line at all. *)
Theorem simulator_finished_stays_finished (self : LivePriceSimulator.t) (n : nat) :
  LivePriceSimulator.is_finished self = true ->
  LivePriceSimulator.calls n self = (repeat LivePriceSimulator.NoPrice n, self)
  /\ LivePriceSimulator.is_finished
       (LivePriceSimulator.open_file LivePriceSimulator.init None) = true
  /\ LivePriceSimulator.is_finished
       (LivePriceSimulator.open_file LivePriceSimulator.init (Some [])) = true.
Proof.
  intros H. split; [| split; reflexivity].
  induction n as [| n IH]; [reflexivity |].
  cbn [LivePriceSimulator.calls]. unfold LivePriceSimulator.get_next_price.
  rewrite H, IH. reflexivity.
Qed.

Lemma simulator_finished_stays_finished_witness :
  LivePriceSimulator.calls
    3 (LivePriceSimulator.open_file LivePriceSimulator.init None)
  = (repeat LivePriceSimulator.NoPrice 3,
     LivePriceSimulator.open_file LivePriceSimulator.init None).
Proof.
  apply (simulator_finished_stays_finished
           (LivePriceSimulator.open_file LivePriceSimulator.init None) 3).
  reflexivity.
Defined.

(** The loop of the example on a simulator with rows left. *)
Lemma received_rows (rows : list (list string)) (fuel : nat) :
  (List.length rows < fuel)%nat ->
  LivePriceSimulator.received fuel (LivePriceSimulator.mk (Some rows) false)
  = if forallb (fun row => match row with [] => false | _ => true end) rows
    then Some (map (hd EmptyString) rows)
    else None.
Proof.
  revert fuel. induction rows as [| row rows IH]; intros fuel Hf.
  - destruct fuel as [| fuel]; [cbn in Hf; lia | reflexivity].
  - destruct fuel as [| fuel]; [cbn in Hf; lia |].
    cbn [List.length] in Hf.
    cbn [LivePriceSimulator.received LivePriceSimulator.get_next_price
         LivePriceSimulator.is_finished LivePriceSimulator.reader forallb].
    destruct row as [| price cols]; [reflexivity |].
    rewrite IH by lia. cbn [andb map hd].
    destruct (forallb _ rows); reflexivity.
Qed.

(** X22: the loop of the example (call until [None]) ends after one call more
    than the file has rows and has then received the first column of every
    row, in order; it ends instead on an exception exactly when some line of
    the file is blank. *)
Theorem example_loop_receives_all (header : list string)
        (rows : list (list string)) (fuel : nat) :
  (List.length rows < fuel)%nat ->
  let self := LivePriceSimulator.open_file LivePriceSimulator.init
                                           (Some (header :: rows)) in
  (Forall (fun row => row <> []) rows ->
   LivePriceSimulator.received fuel self = Some (map (hd EmptyString) rows))
  /\ (In [] rows -> LivePriceSimulator.received fuel self = None).
Proof.
  intros Hf. cbv zeta.
  cbn [LivePriceSimulator.open_file LivePriceSimulator.init
       LivePriceSimulator.is_finished].
  rewrite (received_rows rows fuel Hf). split.
  - intros H.
    assert (E : forallb (fun row : list string =>
                           match row with [] => false | _ => true end) rows
                = true).
    { apply forallb_forall. intros row Hin.
      rewrite Forall_forall in H. specialize (H row Hin).
      destruct row; [congruence | reflexivity]. }
    rewrite E. reflexivity.
  - intros H.
    destruct (forallb _ rows) eqn:E; [| reflexivity].
    rewrite forallb_forall in E. specialize (E [] H). discriminate E.
Qed.

Lemma example_loop_receives_all_witness :
  let self := LivePriceSimulator.open_file
                LivePriceSimulator.init
                (Some (["price"] :: [["28500"]; ["28550"]])%string) in
  (Forall (fun row => row <> []) [["28500"]; ["28550"]]%string ->
   LivePriceSimulator.received 3 self
   = Some (map (hd EmptyString) [["28500"]; ["28550"]]%string))
  /\ (In [] [["28500"]; ["28550"]]%string ->
      LivePriceSimulator.received 3 self = None).
Proof.
  apply (example_loop_receives_all
           ["price"]%string [["28500"]; ["28550"]]%string 3).
  cbn. lia.
Defined.

(** * The class on binary64 numbers *)

(** ** Rounding to binary64 *)

Section Float64Facts.

Import Float64.

Lemma fl_comp (q q' : Q) : q == q' -> fl q = fl q'.
Proof. intros E. unfold fl. rewrite (Qred_complete _ _ E). reflexivity. Qed.

Lemma pow2_pos (e : Z) : 0 < pow2 e.
Proof. apply Qpower_0_lt. reflexivity. Qed.

Lemma fl_pos_nonneg (q : Q) : 0 <= q -> 0 <= fl_pos q.
Proof.
  intros H. unfold fl_pos. set (e := Z.max _ _).
  pose proof (pow2_pos e) as He.
  assert (Hq : 0 <= q / pow2 e) by (apply Qle_shift_div_l; lra).
  pose proof (round_half_even_nonneg _ Hq) as Hr.
  rewrite Zle_Qle in Hr. change (inject_Z 0) with 0 in Hr. nra.
Qed.

Lemma fl_nonneg (q : Q) : 0 <= q -> 0 <= fl q.
Proof.
  intros H. unfold fl. pose proof (Qred_correct q) as E.
  destruct (Qcompare_spec (Qred q) 0) as [E0 | L | G].
  - lra.
  - lra.
  - apply fl_pos_nonneg. lra.
Qed.

Lemma Qopp_opp_eq (r : Q) : - - r = r.
Proof. destruct r as [a b]. unfold Qopp. simpl. rewrite Z.opp_involutive. reflexivity. Qed.

(** Rounding is symmetric about 0. *)
Lemma fl_opp (q : Q) : fl (- q) == - fl q.
Proof.
  unfold fl. rewrite Qred_opp. set (r := Qred q).
  destruct (Qcompare_spec r 0) as [E | L | G];
    destruct (Qcompare_spec (- r) 0) as [E' | L' | G']; try lra.
  rewrite Qopp_opp_eq. reflexivity.
Qed.

(** [abs(p - l)] is the float [l - p] when [p < l]. *)
Lemma abs_sub_sym (p l : Q) : p < l -> abs (sub p l) == sub l p.
Proof.
  intros H. unfold abs, sub.
  assert (E : p - l == - (l - p)) by ring.
  rewrite (fl_comp _ _ E).
  pose proof (fl_opp (l - p)) as O.
  assert (N : 0 <= fl (l - p)) by (apply fl_nonneg; lra).
  rewrite O. rewrite Qabs_opp. apply Qabs_pos. exact N.
Qed.

End Float64Facts.

(** ** What [fl] returns is a float *)

Section Binades.

Import Float64.

Lemma pow2_Z (e : Z) : (0 <= e)%Z -> pow2 e == inject_Z (2 ^ e).
Proof. intros H. unfold pow2. rewrite (Zpower_Qpower 2 e H). reflexivity. Qed.

Lemma pow2_add (x y : Z) : pow2 (x + y) == pow2 x * pow2 y.
Proof. unfold pow2. apply Qpower_plus. discriminate. Qed.

Lemma pow2_sub (x y : Z) : pow2 (x - y) == pow2 x / pow2 y.
Proof. unfold pow2. apply Qpower_minus. discriminate. Qed.

Lemma pow2_1 : pow2 1 == 2.
Proof. reflexivity. Qed.

Lemma pow2_lt (x y : Z) : (x < y)%Z -> pow2 x < pow2 y.
Proof. intros H. apply Qpower_lt_compat_l; [exact H | reflexivity]. Qed.

Lemma pow2_le (x y : Z) : (x <= y)%Z -> pow2 x <= pow2 y.
Proof. intros H. apply Qpower_le_compat_l; [exact H | discriminate]. Qed.

Lemma pow2_lt_inv (x y : Z) : pow2 x < pow2 y -> (x < y)%Z.
Proof. intros H. apply (Qpower_lt_compat_l_inv 2); [exact H | reflexivity]. Qed.

Lemma pow2_le_inv (x y : Z) : pow2 x <= pow2 y -> (x <= y)%Z.
Proof. intros H. apply (Qpower_le_compat_l_inv 2); [exact H | reflexivity]. Qed.

(** A positive integer lies in the binade of its [Z.log2]. *)
Lemma log2_binade (a : Z) :
  (0 < a)%Z -> pow2 (Z.log2 a) <= inject_Z a /\ inject_Z a < pow2 (Z.log2 a + 1).
Proof.
  intros H. destruct (Z.log2_spec a H) as [L U].
  pose proof (Z.log2_nonneg a) as N.
  rewrite (pow2_Z (Z.log2 a) N), (pow2_Z (Z.log2 a + 1)) by lia.
  rewrite <- Zle_Qle, <- Zlt_Qlt. split; [exact L | exact U].
Qed.

Lemma ge_pow2_spec (a b e : Z) :
  (0 < a)%Z -> (0 < b)%Z ->
  ge_pow2 a b e = true <-> pow2 e <= inject_Z a / inject_Z b.
Proof.
  intros Ha Hb. unfold ge_pow2.
  assert (QB : 0 < inject_Z b)
    by (change 0 with (inject_Z 0); rewrite <- Zlt_Qlt; exact Hb).
  destruct (0 <=? e)%Z eqn:E.
  - apply Z.leb_le in E. rewrite (pow2_Z e E), Z.leb_le. split.
    + intros H. apply Qle_shift_div_l; [exact QB |].
      rewrite <- inject_Z_mult, <- Zle_Qle. lia.
    + intros H. apply (Qmult_le_compat_r _ _ (inject_Z b)) in H; [| lra].
      assert (S : inject_Z a / inject_Z b * inject_Z b == inject_Z a)
        by (field; lra).
      rewrite S, <- inject_Z_mult, <- Zle_Qle in H. lia.
  - apply Z.leb_gt in E. rewrite Z.leb_le.
    assert (P : pow2 e == / inject_Z (2 ^ (- e))).
    { replace e with (- - e)%Z at 1 by lia.
      unfold pow2. rewrite Qpower_opp. fold (pow2 (- e)).
      rewrite (pow2_Z (- e)) by lia. reflexivity. }
    assert (QP : 0 < inject_Z (2 ^ (- e))).
    { change 0 with (inject_Z 0). rewrite <- Zlt_Qlt.
      apply Z.pow_pos_nonneg; lia. }
    rewrite P. split.
    + intros H. apply Qle_shift_div_l; [exact QB |].
      assert (G : inject_Z b <= inject_Z a * inject_Z (2 ^ (- e)))
        by (rewrite <- inject_Z_mult, <- Zle_Qle; exact H).
      apply (Qmult_le_l _ _ (inject_Z (2 ^ (- e)))); [exact QP |].
      assert (S : inject_Z (2 ^ (- e)) * (/ inject_Z (2 ^ (- e)) * inject_Z b)
                  == inject_Z b) by (field; lra).
      rewrite S. lra.
    + intros H.
      apply (Qmult_le_compat_r _ _ (inject_Z b * inject_Z (2 ^ (- e)))) in H;
        [| nra].
      assert (S1 : / inject_Z (2 ^ (- e)) * (inject_Z b * inject_Z (2 ^ (- e)))
                   == inject_Z b) by (field; lra).
      assert (S2 : inject_Z a / inject_Z b * (inject_Z b * inject_Z (2 ^ (- e)))
                   == inject_Z a * inject_Z (2 ^ (- e))) by (field; lra).
      rewrite S1, S2, <- inject_Z_mult, <- Zle_Qle in H. exact H.
Qed.

(** A positive rational lies in its binade. *)
Lemma binade_spec (q : Q) :
  0 < q -> pow2 (binade q) <= q /\ q < pow2 (binade q + 1).
Proof.
  intros H. destruct q as [a d].
  assert (Ha : (0 < a)%Z) by (unfold Qlt in H; simpl in H; lia).
  assert (Hd : (0 < Z.pos d)%Z) by lia.
  unfold binade. cbn [Qnum Qden].
  set (la := Z.log2 a). set (ld := Z.log2 (Z.pos d)). set (e0 := (la - ld)%Z).
  destruct (log2_binade a Ha) as [A1 A2]. fold la in A1, A2.
  destruct (log2_binade (Z.pos d) Hd) as [D1 D2]. fold ld in D1, D2.
  assert (Q : a # d == inject_Z a / inject_Z (Z.pos d)) by apply Qmake_Qdiv.
  set (A := inject_Z a) in *. set (D := inject_Z (Z.pos d)) in *.
  assert (PA : 0 < pow2 la) by apply pow2_pos.
  assert (PD : 0 < pow2 ld) by apply pow2_pos.
  assert (QD : 0 < D) by lra.
  assert (E0 : pow2 e0 == pow2 la / pow2 ld) by apply pow2_sub.
  assert (EA : pow2 (la + 1) == 2 * pow2 la)
    by (rewrite pow2_add, pow2_1; ring).
  assert (ED : pow2 (ld + 1) == 2 * pow2 ld)
    by (rewrite pow2_add, pow2_1; ring).
  destruct (ge_pow2 a (Z.pos d) e0) eqn:G.
  - apply (ge_pow2_spec a (Z.pos d) e0 Ha Hd) in G. fold A D in G.
    rewrite Q. split; [exact G |].
    rewrite pow2_add, pow2_1, E0.
    apply Qlt_shift_div_r; [exact QD |].
    assert (S : pow2 la / pow2 ld * 2 * D == 2 * pow2 la * (D / pow2 ld))
      by (field; lra).
    rewrite S.
    assert (T : 1 <= D / pow2 ld) by (apply Qle_shift_div_l; lra).
    nra.
  - assert (G' : ~ pow2 e0 <= A / D).
    { intros C. apply (ge_pow2_spec a (Z.pos d) e0 Ha Hd) in C. congruence. }
    apply Qnot_le_lt in G'.
    replace (e0 - 1 + 1)%Z with e0 by lia.
    rewrite Q. split; [| exact G'].
    rewrite pow2_sub, pow2_1, E0.
    apply Qle_shift_div_l; [exact QD |].
    assert (S : pow2 la / pow2 ld / 2 * D == pow2 la * (D / (2 * pow2 ld)))
      by (field; lra).
    rewrite S.
    assert (T : D / (2 * pow2 ld) <= 1) by (apply Qle_shift_div_r; lra).
    nra.
Qed.


(** Rounding a whole number to the nearest integer returns it. *)
Lemma round_half_even_Z (q : Q) (k : Z) : q == inject_Z k -> Py.round_half_even q = k.
Proof.
  intros E. rewrite (round_half_even_comp _ _ E).
  unfold Py.round_half_even. rewrite Qfloor_Z.
  assert (C : (inject_Z k - inject_Z k ?= 1 # 2) = Lt).
  { apply Qlt_alt. set (w := inject_Z k).
    assert (W : w - w == 0) by ring. rewrite W. reflexivity. }
  rewrite C. reflexivity.
Qed.

Lemma round_half_even_le (s : Q) (hi : Z) :
  s <= inject_Z hi -> (Py.round_half_even s <= hi)%Z.
Proof.
  intros H. pose proof (round_half_even_close s) as C.
  apply Qabs_Qle_condition in C. destruct C as [_ C].
  assert (L : inject_Z (Py.round_half_even s) < inject_Z (hi + 1)).
  { rewrite inject_Z_plus. change (inject_Z 1) with 1. lra. }
  rewrite <- Zlt_Qlt in L. lia.
Qed.

(** A number [m * 2 ^ e] with [m] of at most 53 bits and [e] not below the
    smallest exponent is a float: rounding returns it. *)
Lemma fl_pos_exact (q : Q) (m e : Z) :
  (1 <= m <= 2 ^ 53)%Z -> (-1074 <= e)%Z ->
  q == inject_Z m * pow2 e ->
  fl_pos q == q.
Proof.
  intros [M1 M2] He E.
  assert (Pe : 0 < pow2 e) by apply pow2_pos.
  assert (QM : 1 <= inject_Z m)
    by (change 1 with (inject_Z 1); rewrite <- Zle_Qle; exact M1).
  assert (Hq : 0 < q) by (rewrite E; nra).
  destruct (binade_spec q Hq) as [B1 B2].
  unfold fl_pos. set (b := binade q) in *.
  set (e' := Z.max (b - 52) (-1074)).
  assert (Pe' : 0 < pow2 e') by apply pow2_pos.
  assert (K : exists k : Z, q / pow2 e' == inject_Z k).
  { destruct (Z.eq_dec m (2 ^ 53)) as [T | T].
    - assert (E2 : q == pow2 (53 + e)).
      { rewrite E, T, pow2_add, <- (pow2_Z 53) by lia. reflexivity. }
      assert (b = 53 + e)%Z.
      { rewrite E2 in B1, B2. apply pow2_le_inv in B1. apply pow2_lt_inv in B2. lia. }
      assert (e' = e + 1)%Z by (unfold e'; lia).
      exists (2 ^ 52)%Z. rewrite E2, <- pow2_sub, <- (pow2_Z 52) by lia.
      replace (53 + e - e')%Z with 52%Z by lia. reflexivity.
    - assert (U : q < pow2 (53 + e)).
      { rewrite E, pow2_add, (pow2_Z 53) by lia.
        assert (inject_Z m < inject_Z (2 ^ 53)) by (rewrite <- Zlt_Qlt; lia).
        nra. }
      assert (b < 53 + e)%Z by (apply pow2_lt_inv; lra).
      assert (L : (0 <= e - e')%Z) by (unfold e'; lia).
      exists (m * 2 ^ (e - e'))%Z.
      rewrite inject_Z_mult, <- (pow2_Z (e - e') L), pow2_sub, E.
      field. lra. }
  destruct K as [k K].
  rewrite (round_half_even_Z _ _ K), <- K. field. lra.
Qed.

(** What [fl] returns is a float: rounding it again returns it. *)
Lemma fl_pos_fixed (r : Q) : 0 < r -> fl (fl_pos r) == fl_pos r.
Proof.
  intros H. destruct (binade_spec r H) as [B1 B2].
  set (x := fl_pos r). unfold fl_pos in x. set (b := binade r) in *.
  set (e := Z.max (b - 52) (-1074)) in *.
  set (m := Py.round_half_even (r / pow2 e)) in *.
  assert (Pe : 0 < pow2 e) by apply pow2_pos.
  assert (S0 : 0 <= r / pow2 e) by (apply Qle_shift_div_l; lra).
  assert (M0 : (0 <= m)%Z) by (apply round_half_even_nonneg; exact S0).
  assert (M1 : (m <= 2 ^ 53)%Z).
  { apply round_half_even_le. apply Qle_shift_div_r; [exact Pe |].
    rewrite <- (pow2_Z 53), <- pow2_add by lia.
    assert (pow2 (b + 1) <= pow2 (53 + e)) by (apply pow2_le; unfold e; lia).
    lra. }
  destruct (Z.eq_dec m 0) as [Z0 | NZ].
  - assert (X : x == 0) by (unfold x; rewrite Z0; ring).
    rewrite (fl_comp _ _ X). rewrite X. reflexivity.
  - assert (QM : 1 <= inject_Z m)
      by (change 1 with (inject_Z 1); rewrite <- Zle_Qle; lia).
    assert (X : 0 < x) by (unfold x; nra).
    unfold fl. pose proof (Qred_correct x) as R.
    destruct (Qcompare_spec (Qred x) 0) as [C | C | C]; try lra.
    rewrite (fl_pos_exact (Qred x) m e); [exact R | lia | unfold e; lia |].
    rewrite R. reflexivity.
Qed.

Lemma fl_idempotent (q : Q) : fl (fl q) == fl q.
Proof.
  unfold fl at 2 3. pose proof (Qred_correct q) as R.
  destruct (Qcompare_spec (Qred q) 0) as [C | C | C].
  - reflexivity.
  - rewrite fl_opp. rewrite fl_pos_fixed by lra. reflexivity.
  - apply fl_pos_fixed. exact C.
Qed.

End Binades.

(** ** The decision on a tick *)

(** The move [run_bot] computes with [abs(current_price - last_trade_price)]
    is the move from [last_trade_price - current_price] when the price has
    fallen. *)
Lemma rate_change_fall (ltp price : Q) :
  price < ltp ->
  TradingBot64.rate_change ltp price
  == Float64.round (Float64.mul (Float64.div (Float64.sub ltp price) ltp) 100) 3.
Proof.
  intros H. unfold TradingBot64.rate_change, Float64.round, Float64.mul, Float64.div.
  assert (E : Float64.abs (Float64.sub price ltp) / ltp == Float64.sub ltp price / ltp).
  { rewrite (abs_sub_sym _ _ H). reflexivity. }
  rewrite (fl_comp _ _ E). reflexivity.
Qed.

(** C7.  On a tick with [last_trade_price] set, all numbers being positive
    binary64 numbers: the move [run_bot] computes is
    [(last_trade_price - price) / last_trade_price * 100] rounded to 3
    decimals when the price has fallen, each operation being the float
    operation, and the buy branch is taken exactly when
    [price < last_trade_price] and that rounded move is at least the
    threshold.  With threshold 5, [last_trade_price] 100 and price 94 the
    move is 6.0 and the buy branch is taken.  The threshold compares with
    the move as the floats give it: from 50000 to 47500.25 the move is 4.999
    and a threshold of 5 is not met; from 100000 to 99997.5 the move is
    0.003 and meets the threshold 0.003. *)
Theorem buy_trigger :
  (forall (self : TradingBot.t) (ltp price : Q),
      Float64.is_float ltp = true ->
      Float64.is_float price = true ->
      Float64.is_float (TradingBot.rate self) = true ->
      0 < ltp -> 0 < price ->
      let move :=
        Float64.round
          (Float64.mul (Float64.div (Float64.sub ltp price) ltp) 100) 3 in
      (price < ltp -> TradingBot64.rate_change ltp price == move) /\
      (TradingBot64.decide self ltp price = Trigger Buy <->
       price < ltp /\ TradingBot.rate self <= move)) /\
  (TradingBot64.rate_change 100 94 == 6 /\
   forall self : TradingBot.t,
     TradingBot.rate self == 5 ->
     TradingBot64.decide self 100 94 = Trigger Buy) /\
  (TradingBot64.rate_change 50000 (4750025 # 100) == Float64.float (4999 # 1000) /\
   forall self : TradingBot.t,
     TradingBot.rate self == 5 ->
     TradingBot64.decide self 50000 (4750025 # 100) = Hold) /\
  (TradingBot64.rate_change 100000 (999975 # 10) == Float64.float (3 # 1000) /\
   forall self : TradingBot.t,
     TradingBot.rate self == Float64.float (3 # 1000) ->
     TradingBot64.decide self 100000 (999975 # 10) = Trigger Buy).
Proof.
  split; [| split; [| split]].
  - intros self ltp price _ _ _ _ _ move. split.
    + intros H. apply rate_change_fall. exact H.
    + unfold TradingBot64.decide.
      destruct (Py.ltb price ltp) eqn:L.
      * apply ltb_lt in L. pose proof (rate_change_fall _ _ L) as E. fold move in E.
        assert (Gt : Py.gtb price ltp = false) by (apply gtb_le; lra).
        rewrite Gt. simpl.
        destruct (Py.geb _ _) eqn:G.
        -- apply geb_ge in G. split; [intros _; split; [exact L | lra] | reflexivity].
        -- split; [discriminate |].
           intros [_ H]. rewrite <- E in H. apply geb_ge in H. congruence.
      * apply ltb_ge in L. simpl. split.
        -- destruct (_ && _); discriminate.
        -- intros [H _]. lra.
  - split; [vm_compute; reflexivity |].
    intros self E. unfold TradingBot64.decide.
    assert (G : Py.geb (TradingBot64.rate_change 100 94) (TradingBot.rate self) = true).
    { apply geb_ge. rewrite E. vm_compute. discriminate. }
    rewrite G. reflexivity.
  - split; [vm_compute; reflexivity |].
    intros self E. unfold TradingBot64.decide.
    assert (G : Py.geb (TradingBot64.rate_change 50000 (4750025 # 100))
                       (TradingBot.rate self) = false).
    { destruct (Py.geb _ _) eqn:G; [| reflexivity].
      apply geb_ge in G. rewrite E in G. vm_compute in G. congruence. }
    rewrite G. reflexivity.
  - split; [vm_compute; reflexivity |].
    intros self E. unfold TradingBot64.decide.
    assert (G : Py.geb (TradingBot64.rate_change 100000 (999975 # 10))
                       (TradingBot.rate self) = true).
    { apply geb_ge. rewrite E. vm_compute. discriminate. }
    rewrite G. reflexivity.
Qed.

Lemma buy_trigger_witness :
  TradingBot64.decide (TradingBot.mk 10 5 1000 (Some 100) 0) 100 94 = Trigger Buy
  <-> 94 < 100
      /\ 5 <= Float64.round
                (Float64.mul (Float64.div (Float64.sub 100 94) 100) 100) 3.
Proof.
  apply (proj1 buy_trigger (TradingBot.mk 10 5 1000 (Some 100) 0) 100 94);
    reflexivity.
Defined.

(** ** One iteration and whole runs of the class *)

Section RunBot64.

Import TradingBot64.

Variables (self : TradingBot.t) (csv_file : file) (x : TradingBot.exchange).

Lemma trade64_guarded (order_type : side) (current_price : Q) :
  let s := trade self csv_file x order_type current_price in
  (s_bot s = self /\ s_file s = csv_file
   /\ forall o, In o (s_orders s) -> o_accepted o = false)
  \/ (exists o, s_orders s = [o] /\ o_accepted o = true
                /\ s_bot s = TradingBot.set_last_trade_price self current_price
                /\ s_file s = _save_state (s_bot s) csv_file
                /\ s_control s = Continue).
Proof.
  unfold trade.
  destruct (_get_quantity_to_trade self x) as [[quantity order_value] |];
    [| left; cbn; intuition].
  destruct (Py.gtb quantity 0); [| left; cbn; intuition].
  destruct (_get_valid_price x current_price) as [limit_price |];
    [| left; cbn; intuition].
  unfold _place_order. cbn [o_accepted].
  destruct (TradingBot.order_accepted x) eqn:Acc.
  - right. eexists. cbn. repeat split.
  - left. cbn. repeat split. intros o [<- | []]. reflexivity.
Qed.

(** One iteration of [run_bot] either leaves the ledger and the file as they
    were, with no accepted order, or has exactly one order, accepted, and
    then sets the last trade price and appends the new state. *)
Lemma run_bot_step64_guarded :
  let s := run_bot_step self csv_file x in
  (s_bot s = self /\ s_file s = csv_file
   /\ forall o, In o (s_orders s) -> o_accepted o = false)
  \/ (exists o current_price,
         _get_market_data x = Some current_price
         /\ s_orders s = [o] /\ o_accepted o = true
         /\ s_bot s = TradingBot.set_last_trade_price self current_price
         /\ s_file s = _save_state (s_bot s) csv_file
         /\ s_control s = Continue).
Proof.
  unfold run_bot_step.
  destruct (_get_market_data x) as [current_price |]; [| left; cbn; intuition].
  destruct (Qeq_bool current_price 0); [left; cbn; intuition |].
  destruct (TradingBot.last_trade_price self) as [ltp |]; [| left; cbn; intuition].
  destruct (Qeq_bool ltp 0); [left; cbn; intuition |].
  destruct (decide self ltp current_price) as [[|] |].
  - destruct (Py.geb _ _); [| left; cbn; intuition].
    destruct (trade64_guarded Buy current_price) as [H | [o H]];
      [left; exact H | right; exists o, current_price; intuition].
  - destruct (Py.geb _ _); [| left; cbn; intuition].
    destruct (trade64_guarded Sell current_price) as [H | [o H]];
      [left; exact H | right; exists o, current_price; intuition].
  - left; cbn; intuition.
Qed.

(** An iteration that leaves the loop has changed nothing and placed no
    order. *)
Lemma run_bot_step64_break :
  s_control (run_bot_step self csv_file x) = Break ->
  run_bot_step self csv_file x = mk_step self csv_file [] Break.
Proof.
  unfold run_bot_step.
  destruct (_get_market_data x) as [current_price |]; [| discriminate].
  destruct (Qeq_bool current_price 0); [discriminate |].
  destruct (TradingBot.last_trade_price self) as [ltp |]; [| discriminate].
  destruct (Qeq_bool ltp 0); [discriminate |].
  assert (T : forall sd, s_control (trade self csv_file x sd current_price) = Break
                         -> False).
  { intros sd. unfold trade.
    destruct (_get_quantity_to_trade self x) as [[q v] |]; [| discriminate].
    destruct (Py.gtb q 0); [| discriminate].
    destruct (_get_valid_price x current_price); [| discriminate].
    destruct (o_accepted _); discriminate. }
  destruct (decide self ltp current_price) as [[|] |]; [| | discriminate].
  - destruct (Py.geb _ _); [intros H; destruct (T _ H) | reflexivity].
  - destruct (Py.geb _ _); [intros H; destruct (T _ H) | reflexivity].
Qed.

(** A buy trigger without the capital for one unit, or a sell trigger without
    the investment for one unit, leaves the loop. *)
Lemma run_bot_step64_halts (current_price ltp : Q) (sd : side) :
  _get_market_data x = Some current_price -> ~ current_price == 0 ->
  TradingBot.last_trade_price self = Some ltp -> ~ ltp == 0 ->
  decide self ltp current_price = Trigger sd ->
  (match sd with
   | Buy => TradingBot.fixed_capital self
   | Sell => TradingBot.current_investment self
   end) < TradingBot.amortized_investment self ->
  run_bot_step self csv_file x = mk_step self csv_file [] Break.
Proof.
  intros Hm Hc Hl Hz Hd Hlow. unfold run_bot_step. rewrite Hm, Hl, Hd.
  assert (E1 : Qeq_bool current_price 0 = false)
    by (destruct (Qeq_bool current_price 0) eqn:E;
        [apply Qeq_bool_iff in E; tauto | reflexivity]).
  assert (E2 : Qeq_bool ltp 0 = false)
    by (destruct (Qeq_bool ltp 0) eqn:E;
        [apply Qeq_bool_iff in E; tauto | reflexivity]).
  rewrite E1, E2.
  destruct sd.
  - destruct (Py.geb _ _) eqn:G; [apply geb_ge in G; lra | reflexivity].
  - destruct (Py.geb _ _) eqn:G; [apply geb_ge in G; lra | reflexivity].
Qed.

End RunBot64.

(** Over any number of iterations: as long as no order has been accepted,
    the ledger and the file are as they were at the start. *)
Lemma run_loop64_unchanged_without_accepted_order
      (xs : list TradingBot.exchange) (self : TradingBot.t)
      (csv_file : TradingBot64.file) :
  (forall o, In o (TradingBot64.r_orders (TradingBot64.run_loop self csv_file xs))
             -> o_accepted o = false) ->
  TradingBot64.r_bot (TradingBot64.run_loop self csv_file xs) = self
  /\ TradingBot64.r_file (TradingBot64.run_loop self csv_file xs) = csv_file.
Proof.
  revert self csv_file. induction xs as [| x xs IH]; intros self csv_file H.
  - split; reflexivity.
  - cbn [TradingBot64.run_loop] in *.
    pose proof (run_bot_step64_guarded self csv_file x) as G. cbv zeta in G.
    destruct (TradingBot64.s_control (TradingBot64.run_bot_step self csv_file x))
      eqn:C; cbn [TradingBot64.r_bot TradingBot64.r_file TradingBot64.r_orders] in *.
    + destruct G as [(Eb & Es & _) | (o & cp & _ & Eo & Acc & _)].
      * rewrite Eb, Es in *. apply IH. intros o Ho. apply H, in_or_app.
        right. exact Ho.
      * rewrite Eo in H. specialize (H o (or_introl eq_refl)). congruence.
    + destruct G as [(Eb & Es & _) | (o & cp & _ & _ & _ & _ & _ & K)];
        [split; assumption | congruence].
    + destruct G as [(Eb & Es & _) | (o & cp & _ & _ & _ & _ & _ & K)];
        [split; assumption | congruence].
Qed.

(** ** The script *)

(** [TradeBot] raises in the first iteration of its loop, whatever the
    exchange would answer, and leaves the file as it found it. *)
Lemma TradeBot_raises (cfg : Trade.config) (filename : Trade.file)
      (ticker : string * Q) (answers : list (bool * (string * Q))) :
  Trade.TradeBot cfg filename ticker answers = (filename, Trade.UnboundLocalError).
Proof.
  unfold Trade.TradeBot, Trade.TradeBot_start.
  destruct answers; cbn; destruct (Trade.read_params_from_csv filename); reflexivity.
Qed.

(** Even with its local variable bound, the loop never has a price to trade
    on: [get_current_price] reads the module variable. *)
Lemma TradeBot_loop_never_trades (answers : list (bool * (string * Q)))
      (local : Trade.binding) (current_price : string * Q) :
  Trade.TradeBot_loop local answers <> Trade.Trading current_price.
Proof.
  revert local. induction answers as [| [connected ticker] rest IH]; intros local.
  - destruct local; cbn; discriminate.
  - destruct local as [| [c |]]; cbn; [discriminate | apply IH | apply IH].
Qed.

(** ** Mutation and persistence only on an accepted order *)

(** C3.  In every iteration of [run_bot]: when no order was accepted (none
    was placed, or the one placed was refused), the ledger and the state
    file are as they were; when an order was accepted it is the only order
    of the iteration, [last_trade_price] is the price of the tick and the
    new state has been appended to the file; the two pools are never
    written.  The same over a whole run without an accepted order.  The
    script [TradeBot] processes no tick at all: it raises in its first
    iteration and leaves its file as it was. *)
Theorem mutation_only_on_accepted_order :
  (forall (self : TradingBot.t) (csv_file : TradingBot64.file)
          (x : TradingBot.exchange),
      let s := TradingBot64.run_bot_step self csv_file x in
      ((forall o, In o (TradingBot64.s_orders s) -> o_accepted o = false) ->
       TradingBot64.s_bot s = self /\ TradingBot64.s_file s = csv_file)
      /\ (forall o, In o (TradingBot64.s_orders s) -> o_accepted o = true ->
          exists current_price,
            TradingBot64._get_market_data x = Some current_price
            /\ TradingBot64.s_orders s = [o]
            /\ TradingBot64.s_bot s
               = TradingBot.set_last_trade_price self current_price
            /\ TradingBot64.s_file s
               = TradingBot64._save_state (TradingBot64.s_bot s) csv_file)
      /\ TradingBot.fixed_capital (TradingBot64.s_bot s)
         = TradingBot.fixed_capital self
      /\ TradingBot.current_investment (TradingBot64.s_bot s)
         = TradingBot.current_investment self)
  /\ (forall (xs : list TradingBot.exchange) (self : TradingBot.t)
             (csv_file : TradingBot64.file),
         (forall o,
             In o (TradingBot64.r_orders (TradingBot64.run_loop self csv_file xs)) ->
             o_accepted o = false) ->
         TradingBot64.r_bot (TradingBot64.run_loop self csv_file xs) = self
         /\ TradingBot64.r_file (TradingBot64.run_loop self csv_file xs) = csv_file)
  /\ (forall (cfg : Trade.config) (filename : Trade.file) (ticker : string * Q)
             (answers : list (bool * (string * Q))),
         Trade.TradeBot cfg filename ticker answers
         = (filename, Trade.UnboundLocalError)).
Proof.
  split; [| split].
  - intros self csv_file x s.
    pose proof (run_bot_step64_guarded self csv_file x) as G. cbv zeta in G.
    fold s in G.
    destruct G as [(Eb & Ef & Rej) | (o & cp & Em & Eo & Acc & Eb & Ef & _)].
    + repeat split.
      * exact Eb.
      * exact Ef.
      * intros o Ho A. rewrite (Rej o Ho) in A. discriminate.
      * rewrite Eb. reflexivity.
      * rewrite Eb. reflexivity.
    + repeat split.
      * exfalso. rewrite Eo in H. specialize (H o (or_introl eq_refl)). congruence.
      * exfalso. rewrite Eo in H. specialize (H o (or_introl eq_refl)). congruence.
      * intros o' Ho' _. rewrite Eo in Ho'. destruct Ho' as [<- | []].
        exists cp. repeat split; assumption.
      * rewrite Eb. reflexivity.
      * rewrite Eb. reflexivity.
  - intros xs self csv_file H.
    apply run_loop64_unchanged_without_accepted_order. exact H.
  - intros. apply TradeBot_raises.
Qed.

Lemma mutation_only_on_accepted_order_witness :
  let self := TradingBot.mk 10 5 1000 (Some 100) 0 in
  let x := TradingBot.mk_exchange (Some 94) (1 # 10000) 5 94 (Some (1 # 100)) false in
  let s := TradingBot64.run_bot_step self None x in
  List.length (TradingBot64.s_orders s) = 1%nat
  /\ TradingBot64.s_bot s = self /\ TradingBot64.s_file s = None.
Proof.
  intros self x s. split; [vm_compute; reflexivity |].
  apply (proj1 (proj1 mutation_only_on_accepted_order self None x)).
  intros o H. vm_compute in H. destruct H as [<- | []]. reflexivity.
Defined.

(** ** Halting *)

(** C4.  When a buy is triggered and [fixed_capital] is below the amortized
    investment, or a sell is triggered and [current_investment] is below it,
    [run_bot] leaves its loop and returns: no order is placed, the ledger
    and the file are as they were, and whatever the exchange would have
    answered later is never asked for.  The run ends by the return of
    [run_bot], not by an exception.  The script [TradeBot] never comes to
    such a trigger: it raises in its first iteration. *)
Theorem insufficient_pool_halts_run :
  (forall (self : TradingBot.t) (csv_file : TradingBot64.file)
          (first x : TradingBot.exchange) (later : list TradingBot.exchange)
          (current_price ltp : Q) (sd : side),
      TradingBot64._get_market_data x = Some current_price ->
      ~ current_price == 0 ->
      TradingBot.last_trade_price self = Some ltp ->
      ~ ltp == 0 ->
      TradingBot64.decide self ltp current_price = Trigger sd ->
      (match sd with
       | Buy => TradingBot.fixed_capital self
       | Sell => TradingBot.current_investment self
       end) < TradingBot.amortized_investment self ->
      TradingBot64.run_bot self csv_file first (x :: later)
      = TradingBot64.mk_run self csv_file [] TradingBot.Halted)
  /\ (forall (cfg : Trade.config) (filename : Trade.file) (ticker : string * Q)
             (answers : list (bool * (string * Q))),
         Trade.TradeBot cfg filename ticker answers
         = (filename, Trade.UnboundLocalError)).
Proof.
  split.
  - intros self csv_file first x later current_price ltp sd Hm Hc Hl Hz Hd Hlow.
    unfold TradingBot64.run_bot. rewrite Hl. cbn [TradingBot64.run_loop].
    rewrite (run_bot_step64_halts self csv_file x current_price ltp sd
               Hm Hc Hl Hz Hd Hlow).
    reflexivity.
  - intros. apply TradeBot_raises.
Qed.

Lemma insufficient_pool_halts_run_witness :
  let self := TradingBot.mk 10 5 5 (Some 100) 100 in
  let x := TradingBot.mk_exchange (Some 94) (1 # 10000) 5 94 (Some (1 # 100)) true in
  let x' := TradingBot.mk_exchange (Some 110) (1 # 10000) 5 110 (Some (1 # 100)) true in
  TradingBot64.run_bot self None x [x; x']
  = TradingBot64.mk_run self None [] TradingBot.Halted.
Proof.
  intros self x x'.
  apply (proj1 insufficient_pool_halts_run self None x x [x']
               (Float64.float 94) 100 Buy).
  - reflexivity.
  - intros E. vm_compute in E. discriminate.
  - reflexivity.
  - intros E. vm_compute in E. discriminate.
  - vm_compute. reflexivity.
  - reflexivity.
Defined.

(** ** Sizing *)

(** A quantity of 0 places no order and changes nothing. *)
Lemma trade64_skips_zero_quantity (self : TradingBot.t) (csv_file : TradingBot64.file)
      (x : TradingBot.exchange) (order_type : side) (current_price : Q)
      (quantity order_value : Q) :
  TradingBot64._get_quantity_to_trade self x = Some (quantity, order_value) ->
  quantity <= 0 ->
  TradingBot64.trade self csv_file x order_type current_price
  = TradingBot64.mk_step self csv_file [] Continue.
Proof.
  intros E H. unfold TradingBot64.trade. rewrite E.
  assert (G : Py.gtb quantity 0 = false) by (apply gtb_le; exact H).
  rewrite G. reflexivity.
Qed.

(** The examples of the sizing: 10 at a price of 50000 with a step of 0.0001
    gives the quantity 0.0002 worth 10.0; with a minimum notional of 10 the
    order is placed, with 15 the quantity is 0 and no order is placed. *)
Lemma sizing_examples :
  let self := TradingBot.mk 10 5 1000 (Some 55000) 0 in
  let x := TradingBot.mk_exchange (Some 50000) (1 # 10000) 10 50000 (Some (1 # 100)) true in
  let x' := TradingBot.mk_exchange (Some 50000) (1 # 10000) 15 50000 (Some (1 # 100)) true in
  sized (TradingBot64._get_quantity_to_trade self x) (Float64.float (2 # 10000)) 10
  /\ map o_side (TradingBot64.s_orders (TradingBot64.run_bot_step self None x)) = [Buy]
  /\ sized (TradingBot64._get_quantity_to_trade self x') 0 10
  /\ TradingBot64.run_bot_step self None x'
     = TradingBot64.mk_step self None [] Continue.
Proof.
  cbv zeta. split; [| split; [| split]].
  - vm_compute. split; reflexivity.
  - vm_compute. reflexivity.
  - vm_compute. split; reflexivity.
  - vm_compute. reflexivity.
Qed.

(** C8.  The sizing does not always reach the multiple of the step size just
    below the raw quantity.  With an amortized investment of 30, a price of
    100, a step size of 0.1 and a minimum notional of 25, the raw quantity
    30 / 100 is three steps, worth 30, which is not below the minimum
    notional.  The code computes 30.0 / 100.0 / 0.1 = 2.9999999999999996,
    floors it to 2 steps and values the order at 20.0: the quantity is
    forced to 0 and the tick, a buy trigger with capital at hand, places no
    order.  With a minimum notional of 10 the order is placed for the
    quantity 0.2, one step short. *)
Theorem sizing_loses_a_step :
  let self := TradingBot.mk 30 4 1000 (Some 105) 0 in
  let x := TradingBot.mk_exchange (Some 100) (1 # 10) 25 100 (Some (1 # 100)) true in
  let x' := TradingBot.mk_exchange (Some 100) (1 # 10) 10 100 (Some (1 # 100)) true in
  (30 / 100 == 3 * (1 # 10) /\ 25 <= 3 * (1 # 10) * 100)
  /\ sized (TradingBot64._get_quantity_to_trade self x) 0 20
  /\ TradingBot64.decide self 105 (Float64.float 100) = Trigger Buy
  /\ TradingBot64.run_bot_step self None x
     = TradingBot64.mk_step self None [] Continue
  /\ sized (TradingBot64._get_quantity_to_trade self x') (Float64.float (2 # 10)) 20
  /\ map o_quantity (TradingBot64.s_orders (TradingBot64.run_bot_step self None x'))
     = [Float64.float (2 # 10)].
Proof.
  cbv zeta. split; [| split; [| split; [| split; [| split]]]].
  - split; [vm_compute; reflexivity | vm_compute; discriminate].
  - vm_compute. split; reflexivity.
  - vm_compute. reflexivity.
  - vm_compute. reflexivity.
  - vm_compute. split; reflexivity.
  - vm_compute. reflexivity.
Qed.

(** ** The state file, line by line *)

Lemma is_float_fl (x : Q) : Float64.is_float x = true -> Float64.float x == x.
Proof.
  unfold Float64.is_float, Float64.float. intros H.
  apply andb_true_iff in H. destruct H as [H _].
  apply Qeq_bool_iff. exact H.
Qed.

(** After a save with a trade price, the file ends with the row saved; it
    begins with the header when it did not exist or began with it. *)
Lemma save64_appends (self : TradingBot.t) (csv_file : TradingBot64.file) (p : Q) :
  TradingBot.last_trade_price self = Some p ->
  csv_file = None \/ (exists lines, csv_file = Some (TradingBot64.Header :: lines)) ->
  exists lines,
    TradingBot64._save_state self csv_file = Some (TradingBot64.Header :: lines)
    /\ last_opt lines
       = Some (TradingBot64.Row
                 (TradingBot.mk_row (TradingBot.amortized_investment self)
                                    (TradingBot.rate self)
                                    (TradingBot.current_investment self)
                                    (TradingBot.fixed_capital self) p)).
Proof.
  intros H [-> | [lines ->]]; unfold TradingBot64._save_state; rewrite H.
  - eexists. split; reflexivity.
  - exists (lines ++ [TradingBot64.Row
                        (TradingBot.mk_row (TradingBot.amortized_investment self)
                                           (TradingBot.rate self)
                                           (TradingBot.current_investment self)
                                           (TradingBot.fixed_capital self) p)]).
    split; [reflexivity | apply last_opt_app].
Qed.

(** C9 as stated fails.  The row holds [amortized_investment] and [rate],
    but [_load_state] does not read them back: a bot configured with 20 and
    7 keeps 20 and 7 after loading a row saved with 10 and 5.  A ledger
    without last trade price is not saved at all.  And a row saved into a
    file that exists and is empty is written without the header, so that
    the next load takes it for the header and restores nothing; with a
    second row the load raises. *)
Lemma load_after_save_differs :
  let saved := TradingBot.mk 10 5 990 (Some 94) 10 in
  let fresh := TradingBot.mk 20 7 1000 None 0 in
  let unset := TradingBot.mk 10 5 800 None 30 in
  (exists loaded,
      TradingBot64._load_state fresh (TradingBot64._save_state saved None)
      = Some loaded
      /\ ~ TradingBot.amortized_investment loaded
           == TradingBot.amortized_investment saved
      /\ ~ TradingBot.rate loaded == TradingBot.rate saved)
  /\ TradingBot64._load_state fresh (TradingBot64._save_state unset None)
     = Some fresh
  /\ TradingBot64._load_state fresh (TradingBot64._save_state saved (Some []))
     = Some fresh
  /\ TradingBot64._load_state
       fresh
       (TradingBot64._save_state saved (TradingBot64._save_state saved (Some [])))
     = None.
Proof.
  cbv zeta. split; [| split; [| split]].
  - eexists. split; [reflexivity |].
    split; intros H; vm_compute in H; discriminate H.
  - reflexivity.
  - reflexivity.
  - reflexivity.
Qed.

(** C9 (amended).  When the last trade price is set and the state file does
    not exist or begins with the header line, saving a ledger and then
    loading, into any bot, reads the row just appended, which is the last
    line of the file, and takes [last_trade_price], [current_investment] and
    [fixed_capital] from it; each is the number saved, a float being written
    and read back without loss.  [amortized_investment] and [rate] are
    written to the row but stay as the loading bot has them.  When the file
    is absent or has no row, loading leaves the bot as configured. *)
Theorem load_after_save :
  (forall (saved fresh : TradingBot.t) (csv_file : TradingBot64.file) (p : Q),
      TradingBot.last_trade_price saved = Some p ->
      csv_file = None \/ (exists lines, csv_file = Some (TradingBot64.Header :: lines)) ->
      Float64.is_float p = true ->
      Float64.is_float (TradingBot.current_investment saved) = true ->
      Float64.is_float (TradingBot.fixed_capital saved) = true ->
      (exists lines,
          TradingBot64._save_state saved csv_file
          = Some (TradingBot64.Header :: lines)
          /\ last_opt lines
             = Some (TradingBot64.Row
                       (TradingBot.mk_row (TradingBot.amortized_investment saved)
                                          (TradingBot.rate saved)
                                          (TradingBot.current_investment saved)
                                          (TradingBot.fixed_capital saved) p)))
      /\ exists loaded p',
          TradingBot64._load_state fresh (TradingBot64._save_state saved csv_file)
          = Some loaded
          /\ TradingBot.last_trade_price loaded = Some p' /\ p' == p
          /\ TradingBot.current_investment loaded
             == TradingBot.current_investment saved
          /\ TradingBot.fixed_capital loaded == TradingBot.fixed_capital saved
          /\ TradingBot.amortized_investment loaded
             = TradingBot.amortized_investment fresh
          /\ TradingBot.rate loaded = TradingBot.rate fresh)
  /\ (forall fresh : TradingBot.t,
         TradingBot64._load_state fresh None = Some fresh
         /\ TradingBot64._load_state fresh (Some []) = Some fresh
         /\ TradingBot64._load_state fresh (Some [TradingBot64.Header]) = Some fresh)
  /\ (forall a r f c : Q,
         TradingBot64.init a r f c None
         = Some (TradingBot.mk (Float64.float a) (Float64.float r)
                               (Float64.float f) None c)
         /\ TradingBot64.init a r f c (Some [TradingBot64.Header])
            = Some (TradingBot.mk (Float64.float a) (Float64.float r)
                                  (Float64.float f) None c)).
Proof.
  split; [| split].
  - intros saved fresh csv_file p H Hf Fp Fc Ff.
    destruct (save64_appends saved csv_file p H Hf) as [lines [E L]].
    split; [exists lines; split; assumption |].
    rewrite E. unfold TradingBot64._load_state. rewrite L.
    eexists. eexists. split; [reflexivity |]. cbn.
    split; [reflexivity |].
    split; [apply is_float_fl; exact Fp |].
    split; [apply is_float_fl; exact Fc |].
    split; [apply is_float_fl; exact Ff |].
    split; reflexivity.
  - intros fresh. repeat split.
  - intros a r f c. split; reflexivity.
Qed.

Lemma load_after_save_witness :
  let saved := TradingBot.mk 10 5 990 (Some 94) 10 in
  let fresh := TradingBot.mk 20 7 1000 None 0 in
  let old := Some [TradingBot64.Header; TradingBot64.Row (TradingBot.mk_row 10 5 0 1000 100)] in
  exists loaded p',
    TradingBot64._load_state fresh (TradingBot64._save_state saved old) = Some loaded
    /\ TradingBot.last_trade_price loaded = Some p' /\ p' == 94
    /\ TradingBot.current_investment loaded == 10
    /\ TradingBot.fixed_capital loaded == 990
    /\ TradingBot.amortized_investment loaded = 20
    /\ TradingBot.rate loaded = 7.
Proof.
  cbv zeta.
  apply (proj1 load_after_save
               (TradingBot.mk 10 5 990 (Some 94) 10)
               (TradingBot.mk 20 7 1000 None 0)
               (Some [TradingBot64.Header;
                      TradingBot64.Row (TradingBot.mk_row 10 5 0 1000 100)])
               94).
  - reflexivity.
  - right. eexists. reflexivity.
  - vm_compute. reflexivity.
  - vm_compute. reflexivity.
  - vm_compute. reflexivity.
Defined.

(** ** The sum of the two pools over a single step *)





(** * Further properties, on the code as it runs *)

(** ** Filters that occur more than once *)

Lemma read_filters_no_min_notional (filters : list filter) (step_size min_notional : Q) :
  (forall m, ~ In (MIN_NOTIONAL m) filters) ->
  snd (read_filters filters step_size min_notional) = min_notional.
Proof.
  revert step_size min_notional.
  induction filters as [| f fs IH]; intros st mn H; [reflexivity |].
  assert (Hfs : forall m, ~ In (MIN_NOTIONAL m) fs)
    by (intros m Hin; apply (H m); right; exact Hin).
  destruct f as [s | m | t |]; cbn [read_filters]; try (apply IH, Hfs).
  exfalso. apply (H m). left. reflexivity.
Qed.

(** X9: when a filter type occurs more than once, the sizing uses the last
    LOT_SIZE entry, whatever the other entries are, and likewise the last
    MIN_NOTIONAL entry; the price rounding uses the first PRICE_FILTER
    entry. *)
Theorem duplicate_filters :
  (forall (before after : list filter) (s a b : Q),
      (forall s', ~ In (LOT_SIZE s') after) ->
      fst (read_filters (before ++ LOT_SIZE s :: after) a b) = s)
  /\ (forall (before after : list filter) (m a b : Q),
         (forall m', ~ In (MIN_NOTIONAL m') after) ->
         snd (read_filters (before ++ MIN_NOTIONAL m :: after) a b) = m)
  /\ (forall (before after : list filter) (t : Q),
         (forall t', ~ In (PRICE_FILTER t') before) ->
         first_tick_size (before ++ PRICE_FILTER t :: after) = Some t).
Proof.
  split; [| split].
  - intros before after s a b HL. revert a b.
    induction before as [| f fs IH]; intros a b.
    + cbn [app read_filters]. apply read_filters_no_lot_size, HL.
    + destruct f; cbn [app read_filters]; apply IH.
  - intros before after m a b HM. revert a b.
    induction before as [| f fs IH]; intros a b.
    + cbn [app read_filters]. apply read_filters_no_min_notional, HM.
    + destruct f; cbn [app read_filters]; apply IH.
  - intros before after t HP.
    induction before as [| f fs IH]; [reflexivity |].
    assert (HP' : forall t', ~ In (PRICE_FILTER t') fs)
      by (intros t' Hin; apply (HP t'); right; exact Hin).
    destruct f as [s' | m' | t' |]; cbn [app first_tick_size];
      try (apply (IH HP')).
    exfalso. apply (HP t'). left. reflexivity.
Qed.

Lemma duplicate_filters_witness :
  let filters :=
    [PRICE_FILTER (1 # 100); LOT_SIZE 1; MIN_NOTIONAL 10; LOT_SIZE (1 # 10000);
     PRICE_FILTER (1 # 10); MIN_NOTIONAL 5; OTHER_FILTER] in
  fst (read_filters filters 0 0) = 1 # 10000
  /\ snd (read_filters filters 0 0) = 5
  /\ first_tick_size filters = Some (1 # 100).
Proof.
  cbv zeta. split; [| split].
  - apply (proj1 duplicate_filters
                 [PRICE_FILTER (1 # 100); LOT_SIZE 1; MIN_NOTIONAL 10]
                 [PRICE_FILTER (1 # 10); MIN_NOTIONAL 5; OTHER_FILTER]
                 (1 # 10000) 0 0).
    intros v [H | [H | [H | []]]]; discriminate H.
  - apply (proj1 (proj2 duplicate_filters)
                 [PRICE_FILTER (1 # 100); LOT_SIZE 1; MIN_NOTIONAL 10;
                  LOT_SIZE (1 # 10000); PRICE_FILTER (1 # 10)]
                 [OTHER_FILTER] 5 0 0).
    intros v [H | []]; discriminate H.
  - apply (proj2 (proj2 duplicate_filters)
                 []
                 [LOT_SIZE 1; MIN_NOTIONAL 10; LOT_SIZE (1 # 10000);
                  PRICE_FILTER (1 # 10); MIN_NOTIONAL 5; OTHER_FILTER]
                 (1 # 100)).
    intros v [].
Defined.

(** ** A move below the rate *)

(** X14: a move below the configured rate is ignored by [run_bot]: the
    iteration places no order, writes nothing, leaves the ledger as it is and
    goes on to the next one.  The move is the one the floats give, for a
    positive trade price and a positive price. *)
Theorem run_bot_holds_below_rate
        (self : TradingBot.t) (csv_file : TradingBot64.file)
        (x : TradingBot.exchange) (current_price ltp : Q) :
  TradingBot64._get_market_data x = Some current_price ->
  TradingBot.last_trade_price self = Some ltp ->
  Float64.is_float ltp = true ->
  Float64.is_float (TradingBot.rate self) = true ->
  0 < ltp -> 0 < current_price ->
  TradingBot64.rate_change ltp current_price < TradingBot.rate self ->
  TradingBot64.run_bot_step self csv_file x
  = TradingBot64.mk_step self csv_file [] Continue.
Proof.
  intros Hm Hl _ _ Hz _ Hlow. unfold TradingBot64.run_bot_step. rewrite Hm, Hl.
  destruct (Qeq_bool current_price 0); [reflexivity |].
  rewrite (Qeq_bool_pos ltp Hz). unfold TradingBot64.decide.
  assert (G : Py.geb (TradingBot64.rate_change ltp current_price)
                     (TradingBot.rate self) = false).
  { destruct (Py.geb _ _) eqn:G; [apply geb_ge in G; lra | reflexivity]. }
  rewrite G, !andb_false_r. reflexivity.
Qed.

Lemma run_bot_holds_below_rate_witness :
  TradingBot64.run_bot_step
    (TradingBot.mk 10 5 1000 (Some 100) 0) None
    (TradingBot.mk_exchange (Some 97) (1 # 10000) 5 97 (Some (1 # 100)) true)
  = TradingBot64.mk_step (TradingBot.mk 10 5 1000 (Some 100) 0) None [] Continue.
Proof.
  apply (run_bot_holds_below_rate
           (TradingBot.mk 10 5 1000 (Some 100) 0) None
           (TradingBot.mk_exchange (Some 97) (1 # 10000) 5 97 (Some (1 # 100)) true)
           (Float64.float 97) 100);
    try reflexivity; vm_compute; reflexivity.
Defined.

(** ** The file and the loop of the script *)

(** X16: what [read_params_from_csv] finds after [save_params_to_csv].  On
    a file that did not exist, the row saved under the names of the header;
    on a file with lines, the row saved under what the first line holds; on
    a file that existed and was empty, nothing, the row saved being taken
    for the names. *)
Theorem read_after_save (p : Trade.params) :
  Trade.read_params_from_csv (Trade.save_params_to_csv p None)
  = Some (Trade.Header, Trade.Row p)
  /\ (forall (names : Trade.line) (records : list Trade.line),
         Trade.read_params_from_csv
           (Trade.save_params_to_csv p (Some (names :: records)))
         = Some (names, Trade.Row p))
  /\ Trade.read_params_from_csv (Trade.save_params_to_csv p (Some [])) = None.
Proof.
  split; [reflexivity | split; [| reflexivity]].
  intros names records. unfold Trade.save_params_to_csv, Trade.read_params_from_csv.
  cbn [app]. rewrite last_opt_app. reflexivity.
Qed.

(** X17: the script never trades.  [TradeBot] raises in the first iteration
    of its loop, whatever the file holds and whatever the exchange would
    answer, and leaves the file as it found it; and from no binding of its
    local variable would the loop come to a price, since
    [get_current_price], [buy], [sell] and [get_quantity_to_trade] read the
    module variable, which stays [None]. *)
Theorem TradeBot_never_trades :
  (forall (cfg : Trade.config) (filename : Trade.file) (ticker : string * Q)
          (answers : list (bool * (string * Q))),
      Trade.TradeBot cfg filename ticker answers
      = (filename, Trade.UnboundLocalError))
  /\ (forall (local : Trade.binding) (answers : list (bool * (string * Q)))
             (current_price : string * Q),
         Trade.TradeBot_loop local answers <> Trade.Trading current_price)
  /\ (forall (accepted : bool) (quantity : Q),
         Trade.buy accepted quantity = None /\ Trade.sell accepted quantity = None)
  /\ (forall amortized_investment step_size min_notional current_price : Q,
         Trade.get_quantity_to_trade amortized_investment step_size min_notional
                                     current_price = None).
Proof.
  split; [| split; [| split]].
  - intros. apply TradeBot_raises.
  - intros. apply TradeBot_loop_never_trades.
  - intros. split; reflexivity.
  - intros. reflexivity.
Qed.

(** ** Restarting on the file a run has left *)

Section Restart.

Import TradingBot64.

Variables a r f c : Q.

(** What [__init__] finds when the file ends with a row. *)
Lemma init_on_rows (lines : list line) (row : TradingBot.row) :
  last_opt lines = Some (Row row) ->
  init a r f c (Some (Header :: lines))
  = Some (TradingBot.mk (Float64.float a) (Float64.float r)
                        (Float64.float (TradingBot.r_fixed_capital row))
                        (Some (Float64.float (TradingBot.r_last_trade_price row)))
                        (Float64.float (TradingBot.r_current_investment row))).
Proof.
  intros L. unfold init, _load_state. rewrite L. reflexivity.
Qed.

Lemma run_bot_step_invariant (self : TradingBot.t) (csv_file : file)
      (x : TradingBot.exchange) :
  run_invariant a r f c self csv_file ->
  run_invariant a r f c (s_bot (run_bot_step self csv_file x))
                (s_file (run_bot_step self csv_file x)).
Proof.
  intros (HF & HA & HR & Hfc & Hci & Hres).
  pose proof (run_bot_step64_guarded self csv_file x) as G. cbv zeta in G.
  destruct G as [(Eb & Ef & _) | (o & cp & Em & _ & _ & Eb & Ef & _)].
  - rewrite Eb, Ef. repeat split; assumption.
  - rewrite Ef, Eb.
    assert (Fcp : Float64.float cp == cp).
    { unfold _get_market_data in Em.
      destruct (TradingBot.market_price x) as [text |]; [| discriminate].
      cbn in Em. injection Em as <-. apply fl_idempotent. }
    destruct (save64_appends (TradingBot.set_last_trade_price self cp) csv_file cp
                             eq_refl HF) as [lines [E L]].
    rewrite E. cbn [TradingBot.set_last_trade_price TradingBot.amortized_investment
                    TradingBot.rate TradingBot.fixed_capital
                    TradingBot.current_investment] in *.
    split; [right; exists lines; reflexivity |].
    split; [exact HA |]. split; [exact HR |].
    split; [exact Hfc |]. split; [exact Hci |].
    intros _. rewrite (init_on_rows lines _ L). eexists. split; [reflexivity |].
    unfold same_ledger. cbn. rewrite HA, HR.
    repeat split; try reflexivity; assumption.
Qed.

Lemma run_loop_invariant (xs : list TradingBot.exchange) (self : TradingBot.t)
      (csv_file : file) :
  run_invariant a r f c self csv_file ->
  run_invariant a r f c (r_bot (run_loop self csv_file xs))
                (r_file (run_loop self csv_file xs)).
Proof.
  revert self csv_file. induction xs as [| x xs IH]; intros self csv_file H.
  - exact H.
  - cbn [run_loop]. pose proof (run_bot_step_invariant self csv_file x H) as S.
    destruct (s_control (run_bot_step self csv_file x));
      cbn [r_bot r_file]; [apply IH; exact S | exact S | exact S].
Qed.

End Restart.

(** X12: a restart resumes where the run stood.  Started on a state file
    that does not exist or begins with the header, a run of [run_bot] leaves
    a file from which a bot built with the same configuration loads the
    ledger the run ended with, once that file ends with a row, whatever the
    exchange answered during the run. *)
Theorem restart_resumes_ledger (a r f c : Q) (csv_file : TradingBot64.file)
        (first : TradingBot.exchange) (xs : list TradingBot.exchange)
        (started : TradingBot.t) :
  absent_or_headed csv_file ->
  Float64.is_float c = true ->
  TradingBot64.init a r f c csv_file = Some started ->
  let run := TradingBot64.run_bot started csv_file first xs in
  ends_with_row (TradingBot64.r_file run) ->
  exists restarted,
    TradingBot64.init a r f c (TradingBot64.r_file run) = Some restarted
    /\ same_ledger restarted (TradingBot64.r_bot run).
Proof.
  intros HF Hc Hinit run.
  assert (Inv : run_invariant a r f c started csv_file
                /\ (TradingBot.last_trade_price started = None ->
                    ~ ends_with_row csv_file)).
  { unfold TradingBot64.init, TradingBot64._load_state in Hinit.
    destruct HF as [-> | [lines ->]].
    - injection Hinit as <-. split.
      + split; [left; reflexivity |]. cbn.
        split; [reflexivity |]. split; [reflexivity |].
        split; [apply fl_idempotent |]. split; [apply is_float_fl; exact Hc |].
        intros (l & row & E & _). discriminate E.
      + intros _ (l & row & E & _). discriminate E.
    - destruct (last_opt lines) as [[| row] |] eqn:L; [discriminate Hinit | |].
      + injection Hinit as <-. split.
        * split; [right; exists lines; reflexivity |]. cbn.
          split; [reflexivity |]. split; [reflexivity |].
          split; [apply fl_idempotent |]. split; [apply fl_idempotent |].
          intros _. rewrite (init_on_rows a r f c lines row L).
          eexists. split; [reflexivity |].
          unfold same_ledger. cbn. repeat split; reflexivity.
        * cbn. discriminate.
      + injection Hinit as <-. split.
        * split; [right; exists lines; reflexivity |]. cbn.
          split; [reflexivity |]. split; [reflexivity |].
          split; [apply fl_idempotent |]. split; [apply is_float_fl; exact Hc |].
          intros (l & row & E & L'). injection E as <-. congruence.
        * intros _ (l & row & E & L'). injection E as <-. congruence. }
  destruct Inv as [Inv Hnone].
  assert (Fin : run_invariant a r f c (TradingBot64.r_bot run)
                              (TradingBot64.r_file run)).
  { unfold run, TradingBot64.run_bot.
    destruct (TradingBot.last_trade_price started) as [ltp |] eqn:Lp.
    - apply run_loop_invariant. exact Inv.
    - destruct (TradingBot64._get_market_data first) as [cp |]; [| exact Inv].
      destruct (Qeq_bool cp 0); [exact Inv |].
      apply run_loop_invariant.
      destruct Inv as (I1 & I2 & I3 & I4 & I5 & _).
      repeat split; try assumption.
      intros E. destruct (Hnone eq_refl E). }
  destruct Fin as (_ & _ & _ & _ & _ & Res). exact Res.
Qed.

Lemma restart_resumes_ledger_witness :
  let first := TradingBot.mk_exchange (Some 100) 0 0 100 None false in
  let xs := [TradingBot.mk_exchange (Some 94) (1 # 10000) 5 94 (Some (1 # 100)) true] in
  let started := TradingBot.mk (Float64.float 10) (Float64.float 5)
                               (Float64.float 1000) None 0 in
  let run := TradingBot64.run_bot started None first xs in
  exists restarted,
    TradingBot64.init 10 5 1000 0 (TradingBot64.r_file run) = Some restarted
    /\ same_ledger restarted (TradingBot64.r_bot run).
Proof.
  cbv zeta.
  apply (restart_resumes_ledger
           10 5 1000 0 None
           (TradingBot.mk_exchange (Some 100) 0 0 100 None false)
           [TradingBot.mk_exchange (Some 94) (1 # 10000) 5 94 (Some (1 # 100)) true]).
  - left. reflexivity.
  - vm_compute. reflexivity.
  - reflexivity.
  - vm_compute. eexists. eexists. split; reflexivity.
Defined.
